(** * store_api: the product usecase over a document collection

    A shallow embedding of
      - store/schemas/product.py     (ProductIn, ProductUpdate, ProductFilters),
      - store/models/product.py      (ProductModel),
      - store/usecases/product.py    (ProductUsecase),
      - store/controllers/product.py (the handlers),
    together with a model of the document collection the usecase talks to. *)

From Stdlib Require Import ZArith QArith String Ascii List Lia.
From Stdlib Require Import SpecFloat.
From stdpp Require Import gmap strings list pretty.

Local Open Scope string_scope.
Local Open Scope Z_scope.

(** ** Numbers *)

Module Num.

(** Python's [decimal.Decimal]: sign, coefficient and exponent, or one of
    the special values. *)
Inductive Decimal :=
| DFin (neg : bool) (coeff : N) (exp : Z)
| DInf (neg : bool)
| DNaN.

(** [bson.Decimal128]; [to_decimal] is the accessor the usecase names. *)
Record Decimal128 := { to_decimal : Decimal }.

(** Python's [float] is IEEE 754 binary64. *)
Definition prec : Z := 53.
Definition emax : Z := 1024.
Abbreviation float := spec_float.

(** [float(d)] for a Decimal [d]: the nearest binary64 value, ties to even. *)
Definition float_of_Decimal (d : Decimal) : float :=
  match d with
  | DNaN => S754_nan
  | DInf s => S754_infinity s
  | DFin s N0 _ => S754_zero s
  | DFin s (Npos c) e =>
      if 0 <=? e
      then binary_round prec emax s (c * Z.to_pos (10 ^ e)) 0
      else
        let '(q, e', l) :=
          SFdiv_core_binary prec emax (Zpos c) 0 (10 ^ (- e)) 0 in
        binary_round_aux prec emax s q e' l
  end.

(** [abs(f).as_integer_ratio()] for a finite [f = m * 2^(-k)]: the numerator
    and the exponent of the power of two left in the denominator. *)
Fixpoint integer_ratio (m : positive) (k : nat) : positive * nat :=
  match k, m with
  | S k', xO m' => integer_ratio m' k'
  | _, _ => (m, k)
  end.

(** [Decimal(f)] for a float [f]: the exact value of [f]. *)
Definition Decimal_of_float (f : float) : Decimal :=
  match f with
  | S754_nan => DNaN
  | S754_infinity s => DInf s
  | S754_zero s => DFin s 0 0
  | S754_finite s m e =>
      if 0 <=? e
      then DFin s (Npos (m * Z.to_pos (2 ^ e))) 0
      else
        let '(n, k) := integer_ratio m (Z.to_nat (- e)) in
        DFin s (Npos (n * Z.to_pos (5 ^ Z.of_nat k))) (- Z.of_nat k)
  end.

(** Numeric values on the extended rational line; the collection compares
    numbers of different representations by value. *)
Inductive xnum :=
| XNaN
| XNegInf
| XFin (q : Q)
| XPosInf.

Definition Q_of_scaled (neg : bool) (m : Z) (base : Z) (e : Z) : Q :=
  let q := if 0 <=? e
           then inject_Z (m * base ^ e)
           else Qmake m (Z.to_pos (base ^ (- e))) in
  if neg then Qopp q else q.

Definition xnum_of_float (f : float) : xnum :=
  match f with
  | S754_nan => XNaN
  | S754_infinity true => XNegInf
  | S754_infinity false => XPosInf
  | S754_zero _ => XFin 0
  | S754_finite s m e => XFin (Q_of_scaled s (Zpos m) 2 e)
  end.

Definition xnum_of_Decimal (d : Decimal) : xnum :=
  match d with
  | DNaN => XNaN
  | DInf true => XNegInf
  | DInf false => XPosInf
  | DFin s c e => XFin (Q_of_scaled s (Z.of_N c) 10 e)
  end.

(** The order used by comparison operators of a query: NaN is related to
    NaN only. *)
Definition xnum_le (a b : xnum) : bool :=
  match a, b with
  | XNaN, XNaN => true
  | XNaN, _ | _, XNaN => false
  | XNegInf, _ => true
  | _, XPosInf => true
  | XFin p, XFin q => Qle_bool p q
  | _, _ => false
  end.

Definition xnum_eqb (a b : xnum) : bool := xnum_le a b && xnum_le b a.

(** [math.isfinite(f)] *)
Definition is_finite (f : float) : bool :=
  match f with
  | S754_zero _ | S754_finite _ _ _ => true
  | S754_infinity _ | S754_nan => false
  end.

(** [d.is_finite()] *)
Definition Decimal_is_finite (d : Decimal) : bool :=
  match d with
  | DFin _ _ _ => true
  | DInf _ | DNaN => false
  end.

(** The two floats have the same value. *)
Definition same_value (f g : float) : bool :=
  xnum_eqb (xnum_of_float f) (xnum_of_float g).

(** [floor(log10(num/den))] for positive [num] and [den]; the fuel covers
    the range of binary64. *)
Fixpoint log10_floor_up (fuel : nat) (num den : Z) (k : Z) : Z :=
  match fuel with
  | O => k
  | S fuel' =>
      if 10 * den <=? num then log10_floor_up fuel' num (10 * den) (k + 1) else k
  end.

Fixpoint log10_floor_down (fuel : nat) (num den : Z) (k : Z) : Z :=
  match fuel with
  | O => k
  | S fuel' =>
      if num <? den then log10_floor_down fuel' (10 * num) den (k - 1) else k
  end.

Definition log10_floor (num den : Z) : Z :=
  if den <=? num then log10_floor_up 400 num den 0
  else log10_floor_down 400 num den 0.

(** Among the decimals [c * 10^x] of [n] digits that [float] maps back to
    [f], the one nearest to [num/den], the exact value of [f]; [None] when
    [n] digits are too few. *)
Definition round_trip_at (f : float) (num den : Z) (k10 : Z) (n : Z)
    : option (Z * Z) :=
  let x := k10 - n + 1 in
  let lo := if 0 <=? x then num / (den * 10 ^ x) else (num * 10 ^ (- x)) / den in
  let hi := lo + 1 in
  let back c := same_value (float_of_Decimal (DFin false (Z.to_N c) x)) f in
  let mid := if 0 <=? x then (2 * num ?= (2 * lo + 1) * 10 ^ x * den)
             else (2 * num * 10 ^ (- x) ?= (2 * lo + 1) * den) in
  match (0 <? lo) && back lo, back hi with
  | true, true =>
      match mid with
      | Lt => Some (lo, x)
      | Gt => Some (hi, x)
      | Eq => Some (if Z.even lo then lo else hi, x)
      end
  | true, false => Some (lo, x)
  | false, true => Some (hi, x)
  | false, false => None
  end.

(** The digits of [repr(f)]: the fewest that read back as [f]; seventeen
    always do. *)
Fixpoint shortest (fuel : nat) (f : float) (num den : Z) (k10 : Z) (n : Z)
    : Z * Z :=
  match fuel with
  | O => (0, 0)
  | S fuel' =>
      match round_trip_at f num den k10 n with
      | Some cx => cx
      | None => shortest fuel' f num den k10 (n + 1)
      end
  end.

Fixpoint strip_zeros (fuel : nat) (c x : Z) : Z * Z :=
  match fuel with
  | O => (c, x)
  | S fuel' =>
      if (c mod 10 =? 0) && negb (c =? 0)
      then strip_zeros fuel' (c / 10) (x + 1)
      else (c, x)
  end.

Fixpoint digits10 (fuel : nat) (c : Z) : Z :=
  match fuel with
  | O => 0
  | S fuel' => if c <? 10 then 1 else 1 + digits10 fuel' (c / 10)
  end.

(** [Decimal(str(f))] for a float [f]: the decimal spelt by [repr(f)].
    [repr] writes the shortest digits that read back as [f]; a whole
    number below 10^16 is written with a final [.0], which the Decimal
    keeps as one decimal place. *)
Definition Decimal_of_str_float (f : float) : Decimal :=
  match f with
  | S754_nan => DNaN
  | S754_infinity s => DInf s
  | S754_zero s => DFin s 0 (-1)
  | S754_finite s m e =>
      let '(num, den) :=
        if 0 <=? e then (Zpos m * 2 ^ e, 1) else (Zpos m, 2 ^ (- e)) in
      let k10 := log10_floor num den in
      let '(c0, x0) := shortest 17 (S754_finite false m e) num den k10 1 in
      let '(c, x) := strip_zeros 20 c0 x0 in
      let n := digits10 20 c in
      let decpt := x + n in
      if (-4 <? decpt) && (decpt <=? 16) && (0 <=? x)
      then DFin s (Z.to_N (c * 10 ^ (x + 1))) (-1)
      else DFin s (Z.to_N c) x
  end.

End Num.
Export Num.

(** ** Values, documents and identifiers *)

(** [bson.ObjectId]: twelve bytes, printed as 24 hexadecimal digits. *)
Record ObjectId := { oid_bits : N }.

Inductive value :=
| VNone
| VBool (b : bool)
| VInt (z : Z)
| VFloat (f : float)
| VDecimal (d : Decimal)
| VDecimal128 (d : Decimal128)
| VStr (s : string)
| VDatetime (t : Z)
| VObjectId (o : ObjectId)
| VUUID (u : N).

#[global] Instance float_eq_dec : EqDecision float.
Proof. solve_decision. Defined.
#[global] Instance Decimal_eq_dec : EqDecision Decimal.
Proof. solve_decision. Defined.
#[global] Instance Decimal128_eq_dec : EqDecision Decimal128.
Proof. solve_decision. Defined.
#[global] Instance ObjectId_eq_dec : EqDecision ObjectId.
Proof. solve_decision. Defined.
#[global] Instance value_eq_dec : EqDecision value.
Proof. solve_decision. Defined.

(** A document (a Python [dict] with string keys). *)
Abbreviation doc := (gmap string value).

(** The numeric reading of a value, where it has one. *)
Definition num_of (v : value) : option xnum :=
  match v with
  | VInt z => Some (XFin (inject_Z z))
  | VFloat f => Some (xnum_of_float f)
  | VDecimal d => Some (xnum_of_Decimal d)
  | VDecimal128 d => Some (xnum_of_Decimal (to_decimal d))
  | _ => None
  end.

Definition hex_digit (n : N) : ascii :=
  nth (N.to_nat n) (list_ascii_of_string "0123456789abcdef") "0"%char.

(** The last [digits] hexadecimal digits of [n]. *)
Fixpoint hex (digits : nat) (n : N) : string :=
  match digits with
  | O => ""
  | S k => hex k (n / 16)%N ++ String (hex_digit (n mod 16)%N) ""
  end.

(** [str(oid)] *)
Definition ObjectId_str (o : ObjectId) : string := hex 24 (oid_bits o).

(** [str(u)] for a [uuid.UUID]: 8-4-4-4-12 hexadecimal digits. *)
Definition UUID_str (u : N) : string :=
  let h := hex 32 u in
  substring 0 8 h ++ "-" ++ substring 8 4 h ++ "-" ++ substring 12 4 h
  ++ "-" ++ substring 16 4 h ++ "-" ++ substring 20 12 h.

(** The identifier handed to Get, Update and Delete.  It is annotated
    [UUID]; Create hands out a [str]. *)
Inductive ident :=
| IdUUID (u : N)
| IdStr (s : string).

Definition ident_value (id : ident) : value :=
  match id with
  | IdUUID u => VUUID u
  | IdStr s => VStr s
  end.

Definition ident_str (id : ident) : string :=
  match id with
  | IdUUID u => UUID_str u
  | IdStr s => s
  end.

(** ** Exceptions and the result-and-state monad *)

Inductive exn_class :=
| NotFoundException
| InsertionException
| TypeError
| NameError
| ValidationError    (** the schema library's, not [xml.dom.ValidationErr] *)
| PyMongoError.

#[global] Instance exn_class_eq_dec : EqDecision exn_class.
Proof. solve_decision. Defined.

(** An exception; [str(e)] is [message e]. *)
Record exn := mk_exn { exn_type : exn_class; message : string }.

#[global] Instance exn_eq_dec : EqDecision exn.
Proof. solve_decision. Defined.

Inductive res (A : Type) :=
| Ok (a : A)
| Raise (e : exn).
Arguments Ok {A} a.
Arguments Raise {A} e.

(** A computation over a world [S]: it returns or raises, and leaves a world. *)
Definition M (S A : Type) : Type := S -> res A * S.

Definition ret {S A} (a : A) : M S A := fun s => (Ok a, s).
Definition raise {S A} (e : exn) : M S A := fun s => (Raise e, s).
Definition bind {S A B} (m : M S A) (k : A -> M S B) : M S B :=
  fun s => match m s with
           | (Ok a, s') => k a s'
           | (Raise e, s') => (Raise e, s')
           end.
(** [try: m / except Exception as e: h e] *)
Definition try_except {S A} (m : M S A) (h : exn -> M S A) : M S A :=
  fun s => match m s with
           | (Ok a, s') => (Ok a, s')
           | (Raise e, s') => h e s'
           end.

(** A result that needs no world. *)
Definition of_res {S A} (r : res A) : M S A := fun s => (r, s).

#[global] Instance M_ret {S} : MRet (M S) := fun _ a => ret a.
#[global] Instance M_bind {S} : MBind (M S) := fun _ _ k m => bind m k.
#[global] Instance M_fmap {S} : FMap (M S) :=
  fun _ _ f m => bind m (fun a => ret (f a)).

(** ** The collection handle, the clock and the logger *)

(** A condition on one field of a query: a value to equal, or a document of
    operators such as [{"$gte": a, "$lte": b}]. *)
Inductive cond :=
| CEq (v : value)
| COps (ops : gmap string value).

(** A query filter: a [dict] from field names to conditions. *)
Abbreviation query_filter := (gmap string cond).

(** An update document; the usecase only sends [{"$set": fields}]. *)
Inductive update_doc :=
| USet (fields : doc).

Record InsertOneResult := { inserted_id : option ObjectId }.
Record DeleteResult := { deleted_count : Z }.

Inductive level := INFO | ERROR.

Class Env (S : Type) := {
  insert_one : doc -> M S InsertOneResult;
  find_one : query_filter -> M S (option doc);
  find : query_filter -> M S (list doc);
  (** with [return_document=ReturnDocument.AFTER] *)
  find_one_and_update : query_filter -> update_doc -> M S (option doc);
  delete_one : query_filter -> M S DeleteResult;
  (** [datetime.utcnow()] *)
  utcnow : S -> Z * S;
  (** [logger.info], [logger.error] *)
  logger : level -> string -> S -> S
}.

Definition now {S} `{Env S} : M S Z :=
  fun s => let '(t, s') := utcnow s in (Ok t, s').
Definition log {S} `{Env S} (l : level) (msg : string) : M S unit :=
  fun s => (Ok tt, logger l msg s).

(** ** store/schemas/product.py *)

Module ProductIn.
(** [ProductBase]'s fields. *)
Record t := {
  name : string;
  quantity : Z;
  price : Decimal;
  status : bool
}.
End ProductIn.

(** What the schema library raises when [count] of the values it is given
    do not fit their fields.  [str(e)] goes on with one entry per such
    field, in the library's words; its first line is kept. *)
Definition validation_error (count : nat) (schema : string) : exn :=
  mk_exn ValidationError
    (pretty count ++ " validation error" ++ (if (count =? 1)%nat then "" else "s")
     ++ " for " ++ schema).

(** A [ProductOut], as the mapping from its field names to their values. *)
Record ProductOut := mkProductOut { out_fields : gmap string value }.
Abbreviation ProductUpdateOut := ProductOut.

(** The value a field declared [str], [int], [bool] or [datetime] takes
    from a keyword of that very type. *)
Definition as_str (v : value) : option value :=
  match v with VStr _ => Some v | _ => None end.
Definition as_int (v : value) : option value :=
  match v with VInt _ => Some v | _ => None end.
Definition as_bool (v : value) : option value :=
  match v with VBool _ => Some v | _ => None end.
Definition as_datetime (v : value) : option value :=
  match v with VDatetime _ => Some v | _ => None end.

(** The value a field declared [Decimal] takes: a float goes through its
    [str], an [int] is taken exactly, and the result has to be finite. *)
Definition as_Decimal (v : value) : option value :=
  match v with
  | VFloat f =>
      if is_finite f then Some (VDecimal (Decimal_of_str_float f)) else None
  | VDecimal d => if Decimal_is_finite d then Some v else None
  | VInt z => Some (VDecimal (DFin (z <? 0) (Z.abs_N z) 0))
  | _ => None
  end.

(** The fields [ProductBase] declares, taken from the keywords [kw]:
    [name], [quantity], [price], declared [Decimal], and [status].  The
    keywords come from [ProductModel.model_dump()], which gives every
    field the type it is declared with; the conversions the schema library
    would try on a keyword of another type are not modelled. *)
Definition ProductBase_fields (kw : doc) : option doc :=
  name ← kw !! "name" ≫= as_str;
  quantity ← kw !! "quantity" ≫= as_int;
  price ← kw !! "price" ≫= as_Decimal;
  status ← kw !! "status" ≫= as_bool;
  Some (<["status" := status]>
         (<["price" := price]>
           (<["quantity" := quantity]> {["name" := name]}))).

(** Modelled from the spec: what [OutSchema] adds to the fields [fields]
    of a record.  The class is declared in store/schemas/base.py, which is
    not among these sources; it is taken to declare [id], [created_at] and
    [updated_at], the fields the data model gives a product beside those
    of [ProductBase], and to keep the identifier as it is handed over.
    Neither it nor [BaseSchemaMixin] is taken to change what the schema
    library does with a keyword that names no field: it is dropped. *)
Definition OutSchema_fields (kw : doc) (id : string) (fields : doc) : option doc :=
  created_at ← kw !! "created_at" ≫= as_datetime;
  updated_at ← kw !! "updated_at" ≫= as_datetime;
  Some (<["id" := VStr id]>
         (<["updated_at" := updated_at]>
           (<["created_at" := created_at]> fields))).

(** The fields of a [ProductOut] built from the keywords [kw] and the
    identifier [id]. *)
Definition ProductOut_fields (kw : doc) (id : string) : option doc :=
  fields ← ProductBase_fields kw;
  OutSchema_fields kw id fields.

(** The number of fields of a [ProductOut] the keywords [kw] fail to
    provide. *)
Definition ProductOut_errors (kw : doc) : nat :=
  length (List.filter (fun r : option value => negb (bool_decide (is_Some r)))
            [kw !! "name" ≫= as_str; kw !! "quantity" ≫= as_int;
             kw !! "price" ≫= as_Decimal; kw !! "status" ≫= as_bool;
             kw !! "created_at" ≫= as_datetime; kw !! "updated_at" ≫= as_datetime]).

(** [ProductOut( **kw, id=id)].  A keyword given twice is Python's
    [TypeError], raised before the schema library sees the call; a value
    that does not fit its field is the library's [ValidationError]. *)
Definition ProductOut_with_id (kw : doc) (id : string) : res ProductOut :=
  match kw !! "id" with
  | Some _ =>
      Raise (mk_exn TypeError
        "store.schemas.product.ProductOut() got multiple values for keyword argument 'id'")
  | None =>
      match ProductOut_fields kw id with
      | Some fields => Ok (mkProductOut fields)
      | None => Raise (validation_error (ProductOut_errors kw) "ProductOut")
      end
  end.

Definition convert_decimal_128 (v : Decimal) : Decimal128 :=
  {| to_decimal := v |}.

Module ProductUpdate.
Record t := {
  quantity : option Z;
  (** [Decimal_]: a Decimal the validator has turned into a Decimal128 *)
  price : option Decimal128;
  status : option bool;
  updated_at : option Z
}.

(** A keyword argument that may be left out. *)
Inductive arg (A : Type) :=
| Default
| Given (a : A).
Arguments Default {A}.
Arguments Given {A} a.

(** [ProductUpdate(quantity=.., price=.., status=.., [updated_at=..])];
    [updated_at] has [default_factory=datetime.utcnow]. *)
Definition new {S} `{Env S} (quantity : option Z) (price : option Decimal)
    (status : option bool) (updated_at : arg (option Z)) : M S t :=
  updated_at ← match updated_at with
               | Given u => mret u
               | Default => t ← now; mret (Some t)
               end;
  mret {| quantity := quantity;
          price := convert_decimal_128 <$> price;
          status := status;
          updated_at := updated_at |}.

Definition set_field (k : string) (v : option value) (d : doc) : doc :=
  match v with
  | Some v => <[k := v]> d
  | None => d
  end.

(** [body.model_dump(exclude_none=True)] *)
Definition model_dump_exclude_none (body : t) : doc :=
  set_field "updated_at" (VDatetime <$> updated_at body)
    (set_field "status" (VBool <$> status body)
      (set_field "price" (VDecimal128 <$> price body)
        (set_field "quantity" (VInt <$> quantity body) ∅))).
End ProductUpdate.

Module ProductFilters.
Record t := {
  min_price : option Decimal;
  max_price : option Decimal;
  name : option string;
  status : option bool
}.

(** [ProductFilters(min_price=.., max_price=.., name=.., status=..)]: a
    field declared [Decimal] takes finite numbers only; handed a NaN or
    an infinity the schema library raises its [ValidationError]. *)
Definition new (min_price max_price : option Decimal) (name : option string)
    (status : option bool) : res t :=
  let refused (d : option Decimal) : nat :=
    if from_option Decimal_is_finite true d then 0%nat else 1%nat in
  match (refused min_price + refused max_price)%nat with
  | O => Ok {| min_price := min_price; max_price := max_price;
               name := name; status := status |}
  | count => Raise (validation_error count "ProductFilters")
  end.
End ProductFilters.

(** ** store/models/product.py *)

Module ProductModel.
Record t := {
  name : string;
  quantity : Z;
  price : float;
  status : bool;
  created_at : Z;
  updated_at : Z
}.

(** [ProductModel( **body.model_dump())]: [price] is declared [float], so
    the Decimal of the body is converted; the two timestamps come from
    their default factories, in declaration order.  (The source imports
    [Field] from [dataclasses]; it is read as the schema library's.) *)
Definition new {S} `{Env S} (body : ProductIn.t) : M S t :=
  created_at ← now;
  updated_at ← now;
  mret {| name := ProductIn.name body;
          quantity := ProductIn.quantity body;
          price := float_of_Decimal (ProductIn.price body);
          status := ProductIn.status body;
          created_at := created_at;
          updated_at := updated_at |}.

(** [product_model.model_dump()]; [base] holds whatever fields
    [CreateBaseModel], declared outside these sources, contributes. *)
Definition model_dump (base : doc) (m : t) : doc :=
  <["updated_at" := VDatetime (updated_at m)]>
    (<["created_at" := VDatetime (created_at m)]>
      (<["status" := VBool (status m)]>
        (<["price" := VFloat (price m)]>
          (<["quantity" := VInt (quantity m)]>
            (<["name" := VStr (name m)]> base))))).
End ProductModel.

(** ** store/usecases/product.py *)

(** [not result] for what [find_one] returns: [None] or an empty dict. *)
Definition falsy (result : option doc) : bool :=
  match result with
  | None => true
  | Some d => bool_decide (d = ∅)
  end.

(** [ProductOut( **result)] for a document read back from the collection.
    This path is modelled coarsely: the record is identified with the
    document it is built from.  The work of the schema library is left
    out: it drops [_id], turns the stored [price] into a Decimal of the
    same value, and raises for a document that lacks a field.  What is
    read below from a record built this way is its [quantity], its
    [status], its timestamps and the value of its [price] as a number,
    all of which the library hands on unchanged. *)
Definition ProductOut_of (result : option doc) : ProductOut :=
  mkProductOut (default ∅ result).

(** [d[k] = v] on the operator document of a condition. *)
Definition cond_setitem (k : string) (v : value) (c : cond) : cond :=
  match c with
  | COps ops => COps (<[k := v]> ops)
  | CEq x => CEq x
  end.

Module ProductUsecase.
Section Usecase.
Context {S : Type} `{Env S}.

(** The fields [CreateBaseModel] adds to [ProductModel.model_dump()]. *)
Variable base_fields : doc.

(** The [except Exception as e] block of [create]; [result] is [None]
    when the local variable was never bound. *)
Definition create_except (result : option InsertOneResult) (e : exn)
    : M S ProductOut :=
  match result ≫= inserted_id with
  | Some oid =>
      try_except
        (delete_one {["_id" := CEq (VObjectId oid)]};;
         log INFO ("Rollback: Removed product " ++ ObjectId_str oid))
        (fun _ => mret tt)
  | None => mret tt
  end;;
  log ERROR ("Error inserting product: " ++ message e);;
  raise (mk_exn InsertionException ("Failed to create product: " ++ message e)).

(** The [try] block is written out statement by statement, so that the
    handler is entered with the binding [result] had when the exception
    was raised.  Each [model_dump()] builds a fresh dict, so the [_id]
    the driver adds to the one it is handed is seen by nobody. *)
Definition create (body : ProductIn.t) : M S ProductOut :=
  fun s0 =>
    match ProductModel.new body s0 with
    | (Raise e, s1) => create_except None e s1
    | (Ok product_model, s1) =>
      match insert_one (ProductModel.model_dump base_fields product_model) s1 with
      | (Raise e, s2) => create_except None e s2
      | (Ok result, s2) =>
          match
            match inserted_id result with
            | Some oid =>
                ProductOut_with_id
                  (ProductModel.model_dump base_fields product_model)
                  (ObjectId_str oid)
            | None =>
                Raise (mk_exn InsertionException
                         "Failed to create product: No inserted ID")
            end
          with
          | Ok out => (Ok out, s2)
          | Raise e => create_except (Some result) e s2
          end
      end
    end.

Definition get (id : ident) : M S ProductOut :=
  result ← find_one {["id" := CEq (ident_value id)]};
  if falsy result
  then raise (mk_exn NotFoundException
                ("Product not found with filter: " ++ ident_str id))
  else mret (ProductOut_of result).

(** The filter dict [query] builds before it calls [find]. *)
Definition build_query_filter (filters : option ProductFilters.t)
    : query_filter :=
  let query_filter : query_filter := ∅ in
  match filters with
  | Some filters =>
      let query_filter :=
        match ProductFilters.min_price filters with
        | Some min_price =>
            <["price" := COps {["$gte" := VFloat (float_of_Decimal min_price)]}]>
              query_filter
        | None => query_filter
        end in
      let query_filter :=
        match ProductFilters.max_price filters with
        | Some max_price =>
            if bool_decide (is_Some (query_filter !! "price"))
            then alter (cond_setitem "$lte" (VFloat (float_of_Decimal max_price)))
                   "price" query_filter
            else <["price" := COps {["$lte" := VFloat (float_of_Decimal max_price)]}]>
                   query_filter
        | None => query_filter
        end in
      let query_filter :=
        match ProductFilters.name filters with
        | Some name =>
            <["name" := COps (<["$options" := VStr "i"]> {["$regex" := VStr name]})]>
              query_filter
        | None => query_filter
        end in
      let query_filter :=
        match ProductFilters.status filters with
        | Some status => <["status" := CEq (VBool status)]> query_filter
        | None => query_filter
        end in
      query_filter
  | None => query_filter
  end.

Definition query (filters : option ProductFilters.t) : M S (list ProductOut) :=
  items ← find (build_query_filter filters);
  mret ((fun item => ProductOut_of (Some item)) <$> items).

(** Lines 76 to 80 of [update]: a [Decimal] price becomes a float; for
    any other price the [elif] asks [isinstance(.., Decimal_)], and
    [Decimal_] is an [Annotated] alias, which Python refuses. *)
Definition update_price_to_float (update_data : doc) : M S doc :=
  match update_data !! "price" with
  | None | Some VNone => mret update_data
  | Some (VDecimal d) =>
      mret (<["price" := VFloat (float_of_Decimal d)]> update_data)
  | Some _ =>
      raise (mk_exn TypeError
        "Subscripted generics cannot be used with class and instance checks")
  end.

Definition update (id : ident) (body : ProductUpdate.t) : M S ProductUpdateOut :=
  try_except
    (existing_product ← find_one {["id" := CEq (ident_value id)]};
     if falsy existing_product
     then raise (mk_exn NotFoundException ("Product not found: " ++ ident_str id))
     else
       let update_data := ProductUpdate.model_dump_exclude_none body in
       t ← now;
       let update_data := <["update_at" := VDatetime t]> update_data in
       update_data ← update_price_to_float update_data;
       result ← find_one_and_update
                  {["id" := CEq (ident_value id)]}
                  (USet (ProductUpdate.model_dump_exclude_none body));
       if falsy result
       then raise (mk_exn InsertionException "Failed to update product")
       else mret (ProductOut_of result))
    (fun e =>
       match exn_type e with
       | NotFoundException => raise e
       | _ =>
           log ERROR ("Erro updating product: " ++ message e);;
           raise (mk_exn InsertionException
                    ("Failed to update product: " ++ message e))
       end).

Definition delete (id : ident) : M S bool :=
  product ← find_one {["id" := CEq (ident_value id)]};
  if falsy product
  then raise (mk_exn NotFoundException
                ("Product not found with filter: " ++ ident_str id))
  else
    result ← delete_one {["id" := CEq (ident_value id)]};
    mret (bool_decide (0 < deleted_count result)).
End Usecase.
End ProductUsecase.

(** ** store/controllers/product.py *)

Module Controller.
Section Controller.
Context {S : Type} `{Env S}.

(** The body of the handler of [GET /]: the filters object is built, which
    fails for a bound that is not a finite number, and then left aside;
    the usecase is called without an argument. *)
Definition query (min_price max_price : option float) (name : option string)
    (status : option bool) : M S (list ProductOut) :=
  filters ← of_res (ProductFilters.new (Decimal_of_float <$> min_price)
                      (Decimal_of_float <$> max_price) name status);
  ProductUsecase.query None.

End Controller.

End Controller.

(** The other handlers of store/controllers/product.py. *)
Module Routes.

(** What a handler hands back to the framework: the value it returns
    (answered with the status code of the route), an [HTTPException], or
    an exception it lets through. *)
Inductive response (A : Type) :=
| Returned (a : A)
| HTTPException (status_code : Z) (detail : string)
| Unhandled (e : exn).
Arguments Returned {A} a.
Arguments HTTPException {A} status_code detail.
Arguments Unhandled {A} e.

(** What a [try] block of a handler can raise: an exception of the usecase
    or an [HTTPException] of its own.  Both are Python [Exception]s. *)
Inductive raised :=
| Exc (e : exn)
| Http (status_code : Z) (detail : string).

Definition HTTP_400_BAD_REQUEST : Z := 400.
Definition HTTP_404_NOT_FOUND : Z := 404.
Definition HTTP_500_INTERNAL_SERVER_ERROR : Z := 500.

(** The detail the three writing handlers share for their last clause. *)
Definition internal_detail : string :=
  "Internal server error occured while creating product".

Section Routes.
Context {S : Type} `{Env S}.

(** The fields [CreateBaseModel] adds to [ProductModel.model_dump()]. *)
Variable base_fields : doc.

(** [POST /].  The first clause, [except ValidationErr], names the
    exception of [xml.dom]; none of the exceptions of the model is one. *)
Definition post (body : ProductIn.t) : S -> response ProductOut * S :=
  fun s =>
    match ProductUsecase.create base_fields body s with
    | (Ok out, s') => (Returned out, s')
    | (Raise exc, s') =>
        match exn_type exc with
        | InsertionException =>
            (HTTPException HTTP_400_BAD_REQUEST
               ("Error creating product: " ++ message exc), s')
        | _ =>
            (HTTPException HTTP_500_INTERNAL_SERVER_ERROR internal_detail,
             logger ERROR ("Unexpected error creating product: " ++ message exc) s')
        end
    end.

(** [GET /{id}]: one clause, for [NotFoundException]. *)
Definition get (id : N) : S -> response ProductOut * S :=
  fun s =>
    match ProductUsecase.get (IdUUID id) s with
    | (Ok out, s') => (Returned out, s')
    | (Raise exc, s') =>
        match exn_type exc with
        | NotFoundException =>
            (HTTPException HTTP_404_NOT_FOUND (message exc), s')
        | _ => (Unhandled exc, s')
        end
    end.

(** [PATCH /{id}] *)
Definition patch (id : N) (body : ProductUpdate.t)
    : S -> response ProductUpdateOut * S :=
  fun s =>
    match ProductUsecase.update (IdUUID id) body s with
    | (Ok out, s') => (Returned out, s')
    | (Raise exc, s') =>
        match exn_type exc with
        | NotFoundException =>
            (HTTPException HTTP_404_NOT_FOUND "Product not found", s')
        | InsertionException =>
            (HTTPException HTTP_400_BAD_REQUEST
               ("Error updating product: " ++ message exc), s')
        | _ => (HTTPException HTTP_500_INTERNAL_SERVER_ERROR internal_detail, s')
        end
    end.

(** The [try] block of [DELETE /{id}]: the [HTTPException] for a delete
    that reports failure is raised inside it. *)
Definition delete_try (id : N) : S -> (unit + raised) * S :=
  fun s =>
    match ProductUsecase.delete (IdUUID id) s with
    | (Ok result, s') =>
        if negb result
        then (inr (Http HTTP_400_BAD_REQUEST "Failed to"), s')
        else (inl tt, s')
    | (Raise exc, s') => (inr (Exc exc), s')
    end.

(** [DELETE /{id}]: [except NotFoundException], then [except Exception],
    which also receives what the [try] block raised itself. *)
Definition delete (id : N) : S -> response unit * S :=
  fun s =>
    match delete_try id s with
    | (inl tt, s') => (Returned tt, s')
    | (inr (Exc exc), s') =>
        match exn_type exc with
        | NotFoundException =>
            (HTTPException HTTP_404_NOT_FOUND (message exc), s')
        | _ => (HTTPException HTTP_500_INTERNAL_SERVER_ERROR internal_detail, s')
        end
    | (inr (Http _ _), s') =>
        (HTTPException HTTP_500_INTERNAL_SERVER_ERROR internal_detail, s')
    end.
End Routes.
End Routes.


(** ** A model of the collection *)

(** The regular expressions a [$regex] condition is read as.  The fragment
    made of alternatives separated by [|], each a run of literal
    characters, dots and escaped punctuation that may begin with [^] and
    end with [$], is given its meaning here, over single-byte characters,
    with case folded on ASCII letters: [compile] answers [None] for a
    pattern outside it.  Such a pattern is read by the expression library
    of the server, which the collection carries along (see [read]). *)
Module Regex.

Inductive atom :=
| Any
| Lit (c : ascii).

Definition metachars : list ascii :=
  list_ascii_of_string "\^$.|?*+()[]{}".

Definition is_meta (c : ascii) : bool := existsb (Ascii.eqb c) metachars.

Definition between (lo hi : nat) (c : ascii) : bool :=
  (lo <=? nat_of_ascii c)%nat && (nat_of_ascii c <=? hi)%nat.

Definition is_upper (c : ascii) : bool := between 65 90 c.
Definition is_alnum (c : ascii) : bool :=
  between 48 57 c || between 65 90 c || between 97 122 c.

Definition lower (c : ascii) : ascii :=
  if is_upper c then ascii_of_nat (nat_of_ascii c + 32) else c.

(** One alternative of a pattern: a run of atoms, tied or not to the
    start and to the end of the subject. *)
Record branch := { from_start : bool; atoms : list atom; to_end : bool }.

Definition with_atom (a : atom) (b : list atom * bool * option string)
    : list atom * bool * option string :=
  let '(r, e, more) := b in (a :: r, e, more).

(** The atoms the pattern [p] begins with, up to its first [|] or its end;
    whether a [$] closes them; and what follows the [|], if there is
    one. *)
Fixpoint compile_branch (p : string)
    : option (list atom * bool * option string) :=
  match p with
  | EmptyString => Some ([], false, None)
  | String c rest =>
      if Ascii.eqb c "|"%char then Some ([], false, Some rest)
      else if Ascii.eqb c "$"%char then
        match rest with
        | EmptyString => Some ([], true, None)
        | String c' rest' =>
            if Ascii.eqb c' "|"%char then Some ([], true, Some rest') else None
        end
      else if Ascii.eqb c "\"%char then
        match rest with
        | String c' rest' =>
            if is_alnum c' then None
            else with_atom (Lit c') <$> compile_branch rest'
        | EmptyString => None
        end
      else if Ascii.eqb c "."%char then with_atom Any <$> compile_branch rest
      else if is_meta c then None
      else with_atom (Lit c) <$> compile_branch rest
  end.

(** The alternatives of [p]; each call uses up at least one character, so
    one unit of fuel per character is enough. *)
Fixpoint compile_branches (fuel : nat) (p : string) : option (list branch) :=
  match fuel with
  | O => None
  | S fuel' =>
      let '(tied, body) :=
        match p with
        | String c rest => if Ascii.eqb c "^"%char then (true, rest) else (false, p)
        | EmptyString => (false, p)
        end in
      match compile_branch body with
      | Some (r, e, more) =>
          let b := {| from_start := tied; atoms := r; to_end := e |} in
          match more with
          | None => Some [b]
          | Some rest => cons b <$> compile_branches fuel' rest
          end
      | None => None
      end
  end.

Definition compile (p : string) : option (list branch) :=
  compile_branches (S (String.length p)) p.

Definition atom_matches (caseless : bool) (a : atom) (c : ascii) : bool :=
  match a with
  | Any => negb (Ascii.eqb c "010"%char)
  | Lit l => if caseless then Ascii.eqb (lower l) (lower c) else Ascii.eqb l c
  end.

(** The atoms match a prefix of [s]. *)
Fixpoint match_here (caseless : bool) (r : list atom) (s : string) : bool :=
  match r, s with
  | [], _ => true
  | a :: r', String c s' => atom_matches caseless a c && match_here caseless r' s'
  | _ :: _, EmptyString => false
  end.

(** The atoms match somewhere in [s]. *)
Fixpoint search (caseless : bool) (r : list atom) (s : string) : bool :=
  match_here caseless r s
  || match s with
     | String _ s' => search caseless r s'
     | EmptyString => false
     end.

(** Where [$] holds: at the end of the subject, and before a newline that
    is its last character. *)
Definition at_end (s : string) : bool :=
  match s with
  | EmptyString => true
  | String c EmptyString => Ascii.eqb c "010"%char
  | _ => false
  end.

(** The atoms match a prefix of [s], and [$] holds after it. *)
Fixpoint match_through (caseless : bool) (r : list atom) (s : string) : bool :=
  match r, s with
  | [], _ => at_end s
  | a :: r', String c s' => atom_matches caseless a c && match_through caseless r' s'
  | _ :: _, EmptyString => false
  end.

(** The atoms match somewhere in [s], and [$] holds after them. *)
Fixpoint search_through (caseless : bool) (r : list atom) (s : string) : bool :=
  match_through caseless r s
  || match s with
     | String _ s' => search_through caseless r s'
     | EmptyString => false
     end.

(** The alternative is found in [s]. *)
Definition found_in (caseless : bool) (s : string) (b : branch) : bool :=
  match from_start b, to_end b with
  | false, false => search caseless (atoms b) s
  | false, true => search_through caseless (atoms b) s
  | true, false => match_here caseless (atoms b) s
  | true, true => match_through caseless (atoms b) s
  end.

(** A pattern once read: whether it is found in a subject, letter case
    ignored or not. *)
Definition matcher : Type := bool -> string -> bool.

(** The expression library of a server: what it makes of a pattern, [None]
    when it refuses the pattern as malformed. *)
Definition library : Type := string -> option matcher.

(** The reading of a pattern: the one given above where the pattern is of
    the fragment, the library's otherwise. *)
Definition read (lib : library) (p : string) : option matcher :=
  match compile p with
  | Some bs => Some (fun caseless s => existsb (found_in caseless s) bs)
  | None => lib p
  end.

(** A library that refuses every pattern it is asked about. *)
Definition no_library : library := fun _ => None.

End Regex.

Module Mongo.

Record t := {
  (** the documents in natural order, each under its [_id] *)
  documents : list (ObjectId * doc);
  next_id : N;
  (** the time the next [utcnow()] reads *)
  clock : Z;
  (** what elapses after each of the coming readings *)
  ticks : list N;
  logs : list (level * string);
  (** the expression library of the server *)
  regex : Regex.library
}.

(** A stored document as a client sees it. *)
Definition view (od : ObjectId * doc) : doc :=
  <["_id" := VObjectId od.1]> od.2.

(** Equality of a field with a value: numbers by value, anything else
    structurally; a missing field equals [None]. *)
Definition bson_eqb (a b : value) : bool :=
  match num_of a, num_of b with
  | Some x, Some y => xnum_eqb x y
  | None, None => bool_decide (a = b)
  | _, _ => false
  end.

Definition field_le (a b : option value) : bool :=
  match a ≫= num_of, b ≫= num_of with
  | Some x, Some y => xnum_le x y
  | _, _ => false
  end.

(** The [$options] of an operator document: caseless or not. *)
Definition caseless_of (ops : gmap string value) : option bool :=
  match ops !! "$options" with
  | None | Some (VStr "") => Some false
  | Some (VStr "i") => Some true
  | Some _ => None
  end.

(** Whether the server reads operator [op] with argument [arg] inside
    [ops]: a numeric bound, a pattern the fragment or the library [lib]
    reads, with options that are known, or the options of a pattern.  (The
    usecase sends no other operator, and no other kind of bound.) *)
Definition op_ok (lib : Regex.library) (ops : gmap string value) (op : string)
    (arg : value) : bool :=
  if decide (op = "$gte" ∨ op = "$lte") then bool_decide (is_Some (num_of arg))
  else if decide (op = "$regex") then
    match arg, caseless_of ops with
    | VStr p, Some _ => bool_decide (is_Some (Regex.read lib p))
    | _, _ => false
    end
  else if decide (op = "$options") then bool_decide (is_Some (ops !! "$regex"))
  else false.

Definition op_holds (lib : Regex.library) (ops : gmap string value)
    (field : option value) (op : string) (arg : value) : bool :=
  if decide (op = "$gte") then field_le (Some arg) field
  else if decide (op = "$lte") then field_le field (Some arg)
  else if decide (op = "$regex") then
    match arg, field, caseless_of ops with
    | VStr p, Some (VStr s), Some caseless =>
        match Regex.read lib p with
        | Some found => found caseless s
        | None => false
        end
    | _, _, _ => false
    end
  else true.

Definition cond_ok (lib : Regex.library) (c : cond) : bool :=
  match c with
  | CEq _ => true
  | COps ops =>
      bool_decide (map_Forall (fun op arg => op_ok lib ops op arg = true) ops)
  end.

Definition cond_holds (lib : Regex.library) (field : option value) (c : cond)
    : bool :=
  match c with
  | CEq v => bson_eqb (default VNone field) v
  | COps ops =>
      bool_decide (map_Forall (fun op arg => op_holds lib ops field op arg = true) ops)
  end.

(** The query is one the server reads. *)
Definition query_ok (lib : Regex.library) (q : query_filter) : bool :=
  bool_decide (map_Forall (fun _ c => cond_ok lib c = true) q).

(** The document satisfies every condition of the query. *)
Definition matches (lib : Regex.library) (q : query_filter) (d : doc) : bool :=
  bool_decide (map_Forall (fun k c => cond_holds lib (d !! k) c = true) q).

(** What the calls raise for a query that is not [query_ok]. *)
Definition rejected : exn :=
  mk_exn PyMongoError "OperationFailure: query not understood".

(** The stored documents split at the first one matching [q]: those
    before it, the hit, those after it. *)
Fixpoint split_first (lib : Regex.library) (q : query_filter)
    (l : list (ObjectId * doc))
    : option (list (ObjectId * doc) * (ObjectId * doc) * list (ObjectId * doc)) :=
  match l with
  | [] => None
  | od :: l' =>
      if matches lib q (view od) then Some ([], od, l')
      else (fun '(before, hit, after) => (od :: before, hit, after))
             <$> split_first lib q l'
  end.

Definition matching (q : query_filter) (m : t) : list doc :=
  List.filter (matches (regex m) q) (view <$> documents m).

Definition set_documents (l : list (ObjectId * doc)) (m : t) : t :=
  {| documents := l; next_id := next_id m; clock := clock m;
     ticks := ticks m; logs := logs m; regex := regex m |}.

(** What the driver encodes: an integer has to fit in 64 bits.  Handed any
    other it raises; the calls below store what they are given, and the
    statements about a document written are made for encodable ones. *)
Definition encodable_value (v : value) : bool :=
  match v with
  | VInt z => (- 2 ^ 63 <=? z) && (z <? 2 ^ 63)
  | _ => true
  end.

Definition encodable (d : doc) : bool :=
  bool_decide (map_Forall (fun _ v => encodable_value v = true) d).

(** The document is appended under a fresh [_id].  (The usecase never
    sends a document with an [_id] of its own.) *)
Definition insert_one (d : doc) : M t InsertOneResult :=
  fun m =>
    let o := {| oid_bits := next_id m |} in
    (Ok {| inserted_id := Some o |},
     {| documents := documents m ++ [(o, d)]; next_id := N.succ (next_id m);
        clock := clock m; ticks := ticks m; logs := logs m; regex := regex m |}).

Definition find (q : query_filter) : M t (list doc) :=
  fun m =>
    if query_ok (regex m) q then (Ok (matching q m), m) else (Raise rejected, m).

Definition find_one (q : query_filter) : M t (option doc) :=
  fun m =>
    if query_ok (regex m) q
    then (Ok ((fun '(_, hit, _) => view hit)
                <$> split_first (regex m) q (documents m)), m)
    else (Raise rejected, m).

(** [$set]: the given fields replace or extend those of the hit. *)
Definition find_one_and_update (q : query_filter) (u : update_doc)
    : M t (option doc) :=
  fun m =>
    if query_ok (regex m) q then
      let 'USet fields := u in
      match split_first (regex m) q (documents m) with
      | Some (before, hit, after) =>
          let hit' := (hit.1, fields ∪ hit.2) in
          (Ok (Some (view hit')), set_documents (before ++ hit' :: after) m)
      | None => (Ok None, m)
      end
    else (Raise rejected, m).

Definition delete_one (q : query_filter) : M t DeleteResult :=
  fun m =>
    if query_ok (regex m) q then
      match split_first (regex m) q (documents m) with
      | Some (before, _, after) =>
          (Ok {| deleted_count := 1 |}, set_documents (before ++ after) m)
      | None => (Ok {| deleted_count := 0 |}, m)
      end
    else (Raise rejected, m).

Definition utcnow (m : t) : Z * t :=
  (clock m,
   {| documents := documents m; next_id := next_id m;
      clock := clock m + Z.of_N (hd 0%N (ticks m)); ticks := tl (ticks m);
      logs := logs m; regex := regex m |}).

Definition logger (l : level) (msg : string) (m : t) : t :=
  {| documents := documents m; next_id := next_id m; clock := clock m;
     ticks := ticks m; logs := logs m ++ [(l, msg)]; regex := regex m |}.

#[global] Instance env : Env t := {
  insert_one := insert_one;
  find_one := find_one;
  find := find;
  find_one_and_update := find_one_and_update;
  delete_one := delete_one;
  utcnow := utcnow;
  logger := logger
}.

(** An empty collection, on a server whose library refuses every pattern
    outside the fragment. *)
Definition empty : t :=
  {| documents := []; next_id := 1; clock := 0; ticks := []; logs := [];
     regex := Regex.no_library |}.

End Mongo.

(** A collection whose calls can fail or be overtaken by another client. *)
Module Chaos.

(** What happens at one call of the driver. *)
Inductive event :=
| Quiet                       (** the call goes through *)
| Down (e : exn)              (** the call raises [e] and changes nothing *)
| Unreported                  (** [insert_one] writes, but reports no identifier *)
| Raced (q : query_filter).   (** another client first deletes the first match of [q] *)

Record t := {
  store : Mongo.t;
  (** one event per coming call; [Quiet] once exhausted *)
  schedule : list event
}.

Definition lift {A} (op : M Mongo.t A) (rest : list event) (m : Mongo.t) : res A * t :=
  let '(r, m') := op m in (r, {| store := m'; schedule := rest |}).

Definition call {A} (op : M Mongo.t A) (unreported : A -> A) : M t A :=
  fun c =>
    let rest := tl (schedule c) in
    match hd Quiet (schedule c) with
    | Quiet => lift op rest (store c)
    | Down e => (Raise e, {| store := store c; schedule := rest |})
    | Unreported => lift (fmap (M := M Mongo.t) unreported op) rest (store c)
    | Raced q => lift op rest (Mongo.delete_one q (store c)).2
    end.

#[global] Instance env : Env t := {
  insert_one d := call (Mongo.insert_one d) (fun _ => {| inserted_id := None |});
  find_one q := call (Mongo.find_one q) id;
  find q := call (Mongo.find q) id;
  find_one_and_update q u := call (Mongo.find_one_and_update q u) id;
  delete_one q := call (Mongo.delete_one q) id;
  utcnow c :=
    let '(t, m) := Mongo.utcnow (store c) in
    (t, {| store := m; schedule := schedule c |});
  logger l msg c := {| store := Mongo.logger l msg (store c); schedule := schedule c |}
}.

End Chaos.

(** ** Sample data *)

Definition widget : ProductIn.t :=
  {| ProductIn.name := "Widget"; ProductIn.quantity := 5;
     ProductIn.price := DFin false 999 (-2); ProductIn.status := true |}.

(** ** Vocabulary of the statements *)

(** The records built from a list of documents. *)
Definition products (l : list doc) : list ProductOut :=
  (fun d => ProductOut_of (Some d)) <$> l.

(** The stored documents as clients see them, in natural order. *)
Definition visible (m : Mongo.t) : list doc := Mongo.view <$> Mongo.documents m.

Definition all_products (m : Mongo.t) : list ProductOut := products (visible m).

(** The filter the usecase builds to look a record up by identifier. *)
Definition by_id (id : ident) : query_filter := {["id" := CEq (ident_value id)]}.

Definition not_found (prefix : string) (id : ident) : exn :=
  mk_exn NotFoundException (prefix ++ ident_str id).

Definition raises_not_found {A} (r : res A) : Prop :=
  exists e, r = Raise e /\ exn_type e = NotFoundException.

(** No stored document carries [id] in its field [id]. *)
Definition absent (id : ident) (m : Mongo.t) : Prop :=
  forall od, od ∈ Mongo.documents m -> Mongo.view od !! "id" ≠ Some (ident_value id).

(** The model [create] builds for [body] when the clock reads as in [m]. *)
Definition model_at (body : ProductIn.t) (m : Mongo.t) : ProductModel.t :=
  {| ProductModel.name := ProductIn.name body;
     ProductModel.quantity := ProductIn.quantity body;
     ProductModel.price := float_of_Decimal (ProductIn.price body);
     ProductModel.status := ProductIn.status body;
     ProductModel.created_at := Mongo.clock m;
     ProductModel.updated_at := Mongo.clock m + Z.of_N (hd 0%N (Mongo.ticks m)) |}.

Definition fresh_id (m : Mongo.t) : ObjectId := {| oid_bits := Mongo.next_id m |}.

Definition stored_doc (base : doc) (body : ProductIn.t) (m : Mongo.t) : doc :=
  ProductModel.model_dump base (model_at body m).

(** The collection once [create] has gone through. *)
Definition after_create (base : doc) (body : ProductIn.t) (m : Mongo.t) : Mongo.t :=
  {| Mongo.documents := Mongo.documents m ++ [(fresh_id m, stored_doc base body m)];
     Mongo.next_id := N.succ (Mongo.next_id m);
     Mongo.clock := Mongo.clock m + Z.of_N (hd 0%N (Mongo.ticks m))
                    + Z.of_N (hd 0%N (tl (Mongo.ticks m)));
     Mongo.ticks := tl (tl (Mongo.ticks m));
     Mongo.logs := Mongo.logs m;
     Mongo.regex := Mongo.regex m |}.

(** What Python raises on [isinstance(x, Decimal_)]. *)
Definition generics_error : exn :=
  mk_exn TypeError "Subscripted generics cannot be used with class and instance checks".

(** The stored document once the fields of [body] are set on it. *)
Definition updated (body : ProductUpdate.t) (hit : ObjectId * doc) : ObjectId * doc :=
  (hit.1, ProductUpdate.model_dump_exclude_none body ∪ hit.2).

Definition price_filters (lo hi : option Decimal) : ProductFilters.t :=
  {| ProductFilters.min_price := lo; ProductFilters.max_price := hi;
     ProductFilters.name := None; ProductFilters.status := None |}.

(** The bound a price is compared with: the binary64 value nearest to the
    decimal given. *)
Definition bound (d : Decimal) : option value := Some (VFloat (float_of_Decimal d)).

(** The document's price is a number within the rounded bounds. *)
Definition within (lo hi : option Decimal) (d : doc) : bool :=
  from_option (fun a => Mongo.field_le (bound a) (d !! "price")) true lo
  && from_option (fun b => Mongo.field_le (d !! "price") (bound b)) true hi.


(** A collection holding one product that carries a UUID in its field
    [id], created at time 1000, with the clock now at 2000. *)
Definition seed_doc : doc :=
  <["id" := VUUID 7]>
    (ProductModel.model_dump ∅
       {| ProductModel.name := "Widget"; ProductModel.quantity := 5;
          ProductModel.price := float_of_Decimal (DFin false 999 (-2));
          ProductModel.status := true;
          ProductModel.created_at := 1000; ProductModel.updated_at := 1000 |}).

Definition seeded : Mongo.t :=
  {| Mongo.documents := [({| oid_bits := 1 |}, seed_doc)]; Mongo.next_id := 2;
     Mongo.clock := 2000; Mongo.ticks := [10; 10; 10]%N; Mongo.logs := [];
     Mongo.regex := Regex.no_library |}.

Definition field (k : string) {S} (r : res ProductOut * S) : option value :=
  match r.1 with
  | Ok out => out_fields out !! k
  | Raise _ => None
  end.

(** The exception [create] raises for a failure [e]. *)
Definition create_failed (e : exn) : exn :=
  mk_exn InsertionException ("Failed to create product: " ++ message e).

Definition no_inserted_id : exn :=
  mk_exn InsertionException "Failed to create product: No inserted ID".

(** The world after the compensating delete of [oid] has been tried in [s]:
    a line is logged when it went through, nothing when it raised. *)
Definition after_rollback {S} `{Env S} (oid : ObjectId) (s : S) : S :=
  match delete_one {["_id" := CEq (VObjectId oid)]} s with
  | (Ok _, s') => logger INFO ("Rollback: Removed product " ++ ObjectId_str oid) s'
  | (Raise _, s') => s'
  end.

Definition create_logged {S} `{Env S} (e : exn) (s : S) : S :=
  logger ERROR ("Error inserting product: " ++ message e) s.

Definition boom : exn := mk_exn PyMongoError "connection reset".

(** A collection on which the first call goes through and the second one
    fails. *)
Definition second_call_fails : Chaos.t :=
  {| Chaos.store := Mongo.empty; Chaos.schedule := [Chaos.Quiet; Chaos.Down boom] |}.

(** A collection holding the seeded product, on which another client
    deletes it between the first call and the second. *)
Definition overtaken : Chaos.t :=
  {| Chaos.store := seeded;
     Chaos.schedule := [Chaos.Quiet; Chaos.Raced (by_id (IdUUID 7))] |}.



(** The string with its ASCII letters in lower case. *)
Fixpoint fold_case (s : string) : string :=
  match s with
  | EmptyString => EmptyString
  | String c s' => String (Regex.lower c) (fold_case s')
  end.

(** [needle] occurs in [hay] as a substring, letter case aside. *)
Definition contains_caseless (needle hay : string) : Prop :=
  exists pre post, fold_case hay = pre ++ fold_case needle ++ post.

(** No character of the string is a metacharacter of regular expressions. *)
Fixpoint plain (s : string) : bool :=
  match s with
  | EmptyString => true
  | String c s' => negb (Regex.is_meta c) && plain s'
  end.

(** The document's name is a string in which [needle] occurs. *)
Definition named (needle : string) (d : doc) : Prop :=
  exists s, d !! "name" = Some (VStr s) /\ contains_caseless needle s.

Definition literal_atoms (s : string) : list Regex.atom :=
  Regex.Lit <$> list_ascii_of_string s.

(** The string as a pattern that stands for itself, anywhere in the
    subject. *)
Definition literal (s : string) : Regex.branch :=
  {| Regex.from_start := false; Regex.atoms := literal_atoms s; Regex.to_end := false |}.

Definition two_pow_53_plus_1 : Decimal := DFin false 9007199254740993 0.

Definition priced (price : Decimal) : ProductIn.t :=
  {| ProductIn.name := "Widget"; ProductIn.quantity := 5;
     ProductIn.price := price; ProductIn.status := true |}.

(** The price [create] hands back for [price]: the decimal spelling of
    the float it was turned into. *)
Definition returned_price (price : Decimal) : Decimal :=
  Decimal_of_str_float (float_of_Decimal price).

(** The record [create] returns for [body] when the clock reads as in
    [m]. *)
Definition created (body : ProductIn.t) (m : Mongo.t) : ProductOut :=
  mkProductOut
    (<["id" := VStr (ObjectId_str (fresh_id m))]>
      (<["updated_at" := VDatetime (Mongo.clock m + Z.of_N (hd 0%N (Mongo.ticks m)))]>
        (<["created_at" := VDatetime (Mongo.clock m)]>
          (<["status" := VBool (ProductIn.status body)]>
            (<["price" := VDecimal (returned_price (ProductIn.price body))]>
              (<["quantity" := VInt (ProductIn.quantity body)]>
                {["name" := VStr (ProductIn.name body)]})))))).


(** The document's name is a string in which the pattern is found, letter
    case ignored. *)
Definition name_found (found : Regex.matcher) (d : doc) : bool :=
  match d !! "name" with
  | Some (VStr s) => found true s
  | _ => false
  end.


(** ** Vocabulary of the further statements *)

(** The exception [update] raises for a failure [e]. *)
Definition update_failed (e : exn) : exn :=
  mk_exn InsertionException ("Failed to update product: " ++ message e).

Definition update_logged {S} `{Env S} (e : exn) (s : S) : S :=
  logger ERROR ("Erro updating product: " ++ message e) s.

(** What [update] raises inside its [try] when the write finds nothing. *)
Definition nothing_updated : exn :=
  mk_exn InsertionException "Failed to update product".

(** The seeded collection with the driver failing at the next call. *)
Definition seeded_down : Chaos.t :=
  {| Chaos.store := seeded; Chaos.schedule := [Chaos.Down boom] |}.

(** A patch of the quantity alone, stamped 2500. *)
Definition restock : ProductUpdate.t :=
  {| ProductUpdate.quantity := Some 7; ProductUpdate.price := None;
     ProductUpdate.status := None; ProductUpdate.updated_at := Some 2500 |}.

(** [id] is carried by [hit], and by no document stored before it. *)
Definition first_carrier (id : ident) (before : list (ObjectId * doc))
    (hit : ObjectId * doc) : Prop :=
  Mongo.view hit !! "id" = Some (ident_value id)
  /\ forall od, od ∈ before -> Mongo.view od !! "id" ≠ Some (ident_value id).

(** The value a field has after a patch: the one given, else the old one. *)
Definition patched (given old : option value) : option value :=
  match given with
  | Some v => Some v
  | None => old
  end.

(** A patch with nothing but the default [updated_at]. *)
Definition empty_patch {S} `{Env S} : M S ProductUpdate.t :=
  ProductUpdate.new None None None ProductUpdate.Default.

(** What Python raises when [ProductOut] is handed the keyword [id] twice. *)
Definition duplicate_id : exn :=
  mk_exn TypeError
    "store.schemas.product.ProductOut() got multiple values for keyword argument 'id'".

(** No stored document has the [_id] the collection generates next. *)
Definition id_is_fresh (m : Mongo.t) : Prop :=
  forall od, od ∈ Mongo.documents m -> od.1 ≠ fresh_id m.

(** The condition [query] builds for a name filter. *)
Definition name_cond (name : string) : cond :=
  COps (<["$options" := VStr "i"]> {["$regex" := VStr name]}).

(** What a document has to satisfy to be returned for the filters. *)
Definition selected (filters : ProductFilters.t) (d : doc) : Prop :=
  within (ProductFilters.min_price filters) (ProductFilters.max_price filters) d = true
  /\ (forall name, ProductFilters.name filters = Some name -> named name d)
  /\ (forall status, ProductFilters.status filters = Some status ->
                     d !! "status" = Some (VBool status)).

(** The filters asking for exactly what [body] carries. *)
Definition filters_of (body : ProductIn.t) : ProductFilters.t :=
  {| ProductFilters.min_price := Some (ProductIn.price body);
     ProductFilters.max_price := Some (ProductIn.price body);
     ProductFilters.name := Some (ProductIn.name body);
     ProductFilters.status := Some (ProductIn.status body) |}.

(** * Properties *)

(** The conversions agree with Python on the value one tenth. *)
Example float_of_Decimal_tenth :
  float_of_Decimal (DFin false 1 (-1)) = S754_finite false 7205759403792794 (-56).
Proof. vm_compute. reflexivity. Qed.

Example Decimal_of_float_tenth :
  Decimal_of_float (S754_finite false 7205759403792794 (-56))
  = DFin false 1000000000000000055511151231257827021181583404541015625 (-55).
Proof. vm_compute. reflexivity. Qed.

(** [float(Decimal(..))] on 12.5, 9.99, 2^53 + 1, 2^53 + 3, 1e-320 and
    1e400: the values Python gives. *)
Example float_of_Decimal_samples :
  float_of_Decimal (DFin false 125 (-1)) = S754_finite false 7036874417766400 (-49)
  /\ float_of_Decimal (DFin false 999 (-2)) = S754_finite false 5623870034678907 (-49)
  /\ float_of_Decimal (DFin false 9007199254740993 0) = S754_finite false 4503599627370496 1
  /\ float_of_Decimal (DFin false 9007199254740995 0) = S754_finite false 4503599627370498 1
  /\ float_of_Decimal (DFin false 1 (-320)) = S754_finite false 2024 (-1074)
  /\ float_of_Decimal (DFin true 1 400) = S754_infinity true.
Proof. vm_compute. repeat split; reflexivity. Qed.

Section Monad.
Lemma bind_run {S A B} (m : M S A) (k : A -> M S B) s :
  (m ≫= k) s = match m s with (Ok a, s') => k a s' | (Raise e, s') => (Raise e, s') end.
Proof. reflexivity. Qed.
Lemma ret_run {S A} (a : A) (s : S) : mret (M := M S) a s = (Ok a, s).
Proof. reflexivity. Qed.

End Monad.

Section MongoFacts.
Lemma view_nonempty od : Mongo.view od ≠ ∅.
Proof. unfold Mongo.view. apply insert_non_empty. Qed.

Lemma falsy_view od : falsy (Some (Mongo.view od)) = false.
Proof. apply bool_decide_eq_false, view_nonempty. Qed.

Lemma query_ok_empty lib : Mongo.query_ok lib ∅ = true.
Proof. apply bool_decide_eq_true, map_Forall_empty. Qed.

Lemma query_ok_eq lib k v : Mongo.query_ok lib {[k := CEq v]} = true.
Proof. apply bool_decide_eq_true, map_Forall_singleton. reflexivity. Qed.

Lemma matches_empty lib d : Mongo.matches lib ∅ d = true.
Proof. apply bool_decide_eq_true, map_Forall_empty. Qed.


End MongoFacts.

Section CreateOnMongo.
Variables (base : doc) (body : ProductIn.t) (m : Mongo.t).

Lemma model_dump_id : stored_doc base body m !! "id" = base !! "id".
Proof.
  unfold stored_doc, ProductModel.model_dump.
  repeat (rewrite lookup_insert_ne; [|discriminate]). reflexivity.
Qed.

Lemma stored_doc_price :
  stored_doc base body m !! "price"
  = Some (VFloat (float_of_Decimal (ProductIn.price body))).
Proof.
  unfold stored_doc, ProductModel.model_dump.
  repeat (rewrite lookup_insert_ne; [|discriminate]).
  apply lookup_insert_eq.
Qed.

Lemma stored_doc_fields :
  stored_doc base body m !! "name" = Some (VStr (ProductIn.name body))
  /\ stored_doc base body m !! "quantity" = Some (VInt (ProductIn.quantity body))
  /\ stored_doc base body m !! "status" = Some (VBool (ProductIn.status body)).
Proof.
  unfold stored_doc, ProductModel.model_dump.
  repeat split; repeat (rewrite lookup_insert_ne by discriminate); apply lookup_insert_eq.
Qed.

Lemma stored_doc_stamps :
  stored_doc base body m !! "created_at" = Some (VDatetime (Mongo.clock m))
  /\ stored_doc base body m !! "updated_at"
     = Some (VDatetime (Mongo.clock m + Z.of_N (hd 0%N (Mongo.ticks m)))).
Proof.
  unfold stored_doc, ProductModel.model_dump.
  cbn [model_at ProductModel.created_at ProductModel.updated_at].
  split.
  - rewrite lookup_insert_ne by discriminate. apply lookup_insert_eq.
  - apply lookup_insert_eq.
Qed.

(** What the schema library makes of the document [create] stores: the
    record, unless the price is not a finite float. *)
Lemma stored_doc_validates :
  ProductOut_fields (stored_doc base body m) (ObjectId_str (fresh_id m))
  = if is_finite (float_of_Decimal (ProductIn.price body))
    then Some (out_fields (created body m))
    else None.
Proof.
  unfold ProductOut_fields, ProductBase_fields, OutSchema_fields.
  destruct stored_doc_fields as (-> & -> & ->).
  destruct stored_doc_stamps as (-> & ->).
  rewrite stored_doc_price.
  cbn [mbind option_bind as_str as_int as_bool as_datetime as_Decimal].
  destruct (is_finite _); reflexivity.
Qed.

(** The run of [create] up to the point where the record is built. *)
Lemma create_run :
  ProductUsecase.create base body m
  = match ProductOut_with_id (stored_doc base body m) (ObjectId_str (fresh_id m)) with
    | Ok out => (Ok out, after_create base body m)
    | Raise e =>
        ProductUsecase.create_except (Some {| inserted_id := Some (fresh_id m) |}) e
          (after_create base body m)
    end.
Proof.
  unfold ProductUsecase.create.
  change (ProductModel.new body m)
    with (Ok (model_at body m), snd (Mongo.utcnow (snd (Mongo.utcnow m)))).
  cbv iota beta.
  change (insert_one ?d ?s) with (Mongo.insert_one d s).
  unfold Mongo.insert_one. cbv iota beta. cbn [inserted_id].
  fold (stored_doc base body m). fold (fresh_id m).
  destruct (ProductOut_with_id _ _); reflexivity.
Qed.

Lemma create_mongo :
  base !! "id" = None ->
  is_finite (float_of_Decimal (ProductIn.price body)) = true ->
  ProductUsecase.create base body m = (Ok (created body m), after_create base body m).
Proof.
  intros Hid Hfin. rewrite create_run. unfold ProductOut_with_id.
  rewrite model_dump_id, Hid, stored_doc_validates, Hfin. reflexivity.
Qed.
End CreateOnMongo.

Section OnMongo.
Lemma bool_decide_is_true (b : bool) : bool_decide (b = true) = b.
Proof. by destruct b. Qed.

Lemma matches_singleton lib k c d :
  Mongo.matches lib {[k := c]} d = Mongo.cond_holds lib (d !! k) c.
Proof.
  unfold Mongo.matches. rewrite <- (bool_decide_is_true (Mongo.cond_holds lib (d !! k) c)).
  apply bool_decide_ext.
  apply (map_Forall_singleton (fun k c => Mongo.cond_holds lib (d !! k) c = true)).
Qed.

Lemma query_ok_by_id lib id : Mongo.query_ok lib (by_id id) = true.
Proof. apply query_ok_eq. Qed.

Lemma matches_object_id lib oid od :
  Mongo.matches lib {["_id" := CEq (VObjectId oid)]} (Mongo.view od)
  = bool_decide (od.1 = oid).
Proof.
  rewrite matches_singleton. unfold Mongo.view, Mongo.cond_holds, Mongo.bson_eqb.
  rewrite lookup_insert_eq. cbn [default from_option num_of].
  apply bool_decide_ext. unfold id. split; congruence.
Qed.

Lemma split_first_at lib q before hit after :
  Mongo.matches lib q (Mongo.view hit) = true ->
  (forall od, od ∈ before -> Mongo.matches lib q (Mongo.view od) = false) ->
  Mongo.split_first lib q (before ++ hit :: after) = Some (before, hit, after).
Proof.
  intros Hh. induction before as [|od before IH]; intros Hb; cbn [app Mongo.split_first].
  - by rewrite Hh.
  - rewrite (Hb od (list_elem_of_here _ _)), IH; [reflexivity|].
    intros od' Hin. apply Hb. by apply list_elem_of_further.
Qed.

Lemma find_one_mongo q m :
  Mongo.query_ok (Mongo.regex m) q = true ->
  find_one q m
  = (Ok ((fun '(_, hit, _) => Mongo.view hit)
           <$> Mongo.split_first (Mongo.regex m) q (Mongo.documents m)), m).
Proof. intros Hq. change (find_one q m) with (Mongo.find_one q m). unfold Mongo.find_one. by rewrite Hq. Qed.

Lemma get_mongo id m :
  ProductUsecase.get id m
  = (match Mongo.split_first (Mongo.regex m) (by_id id) (Mongo.documents m) with
     | Some (_, hit, _) => Ok (ProductOut_of (Some (Mongo.view hit)))
     | None => Raise (not_found "Product not found with filter: " id)
     end, m).
Proof.
  unfold ProductUsecase.get. rewrite bind_run.
  fold (by_id id). rewrite find_one_mongo by apply query_ok_by_id.
  destruct (Mongo.split_first _ _) as [[[before hit] after]|]; cbn [fmap option_fmap option_map].
  - rewrite falsy_view. reflexivity.
  - reflexivity.
Qed.

Lemma delete_mongo id m :
  ProductUsecase.delete id m
  = match Mongo.split_first (Mongo.regex m) (by_id id) (Mongo.documents m) with
    | Some (before, _, after) => (Ok true, Mongo.set_documents (before ++ after) m)
    | None => (Raise (not_found "Product not found with filter: " id), m)
    end.
Proof.
  unfold ProductUsecase.delete. rewrite bind_run.
  fold (by_id id). rewrite find_one_mongo by apply query_ok_by_id.
  destruct (Mongo.split_first _ _) as [[[before hit] after]|] eqn:Hs; cbn [fmap option_fmap option_map].
  - rewrite falsy_view. rewrite bind_run.
    change (delete_one ?q ?s) with (Mongo.delete_one q s). unfold Mongo.delete_one.
    rewrite query_ok_by_id, Hs. reflexivity.
  - reflexivity.
Qed.
End OnMongo.

Section UpdateOnMongo.
Lemma try_run {S A} (m : M S A) (h : exn -> M S A) s :
  try_except m h s
  = match m s with (Ok a, s') => (Ok a, s') | (Raise e, s') => h e s' end.
Proof. reflexivity. Qed.

Lemma dump_price body :
  ProductUpdate.model_dump_exclude_none body !! "price"
  = VDecimal128 <$> ProductUpdate.price body.
Proof.
  unfold ProductUpdate.model_dump_exclude_none, ProductUpdate.set_field.
  destruct body as [q p st u]; cbn [ProductUpdate.quantity ProductUpdate.price ProductUpdate.status ProductUpdate.updated_at].
  destruct q, p, st, u; cbn [fmap option_fmap option_map];
    repeat (rewrite lookup_insert_ne by discriminate);
    rewrite ?lookup_insert_eq, ?lookup_empty; reflexivity.
Qed.

Lemma update_price_to_float_run {S} `{Env S} body t (s : S) :
  ProductUsecase.update_price_to_float
    (<["update_at" := VDatetime t]> (ProductUpdate.model_dump_exclude_none body)) s
  = match ProductUpdate.price body with
    | Some _ => (Raise generics_error, s)
    | None => (Ok (<["update_at" := VDatetime t]> (ProductUpdate.model_dump_exclude_none body)), s)
    end.
Proof.
  unfold ProductUsecase.update_price_to_float.
  rewrite lookup_insert_ne by discriminate. rewrite dump_price.
  destruct (ProductUpdate.price body); reflexivity.
Qed.

Lemma update_mongo id body m :
  ProductUsecase.update id body m
  = match Mongo.split_first (Mongo.regex m) (by_id id) (Mongo.documents m) with
    | None => (Raise (not_found "Product not found: " id), m)
    | Some (before, hit, after) =>
        let m1 := (Mongo.utcnow m).2 in
        match ProductUpdate.price body with
        | Some _ =>
            (Raise (mk_exn InsertionException
                      ("Failed to update product: " ++ message generics_error)),
             Mongo.logger ERROR ("Erro updating product: " ++ message generics_error) m1)
        | None =>
            (Ok (ProductOut_of (Some (Mongo.view (updated body hit)))),
             Mongo.set_documents (before ++ updated body hit :: after) m1)
        end
    end.
Proof.
  unfold ProductUsecase.update. rewrite try_run, bind_run.
  fold (by_id id). rewrite find_one_mongo by apply query_ok_by_id.
  destruct (Mongo.split_first _ _) as [[[before hit] after]|] eqn:Hs; cbn [fmap option_fmap option_map].
  - rewrite falsy_view. rewrite bind_run.
    change (now m) with (Ok (Mongo.clock m), (Mongo.utcnow m).2).
    cbv iota beta. rewrite bind_run, update_price_to_float_run.
    destruct (ProductUpdate.price body) as [p|].
    + reflexivity.
    + rewrite bind_run.
      change (find_one_and_update ?q ?u ?s) with (Mongo.find_one_and_update q u s).
      unfold Mongo.find_one_and_update. rewrite query_ok_by_id.
      change (Mongo.documents (Mongo.utcnow m).2) with (Mongo.documents m).
      change (Mongo.regex (Mongo.utcnow m).2) with (Mongo.regex m).
      rewrite Hs. cbv iota beta.
      fold (updated body hit). rewrite falsy_view. reflexivity.
  - reflexivity.
Qed.
End UpdateOnMongo.

Section NotFound.
Lemma matches_by_id lib i d :
  Mongo.matches lib (by_id i) d = bool_decide (d !! "id" = Some (ident_value i)).
Proof.
  unfold by_id. rewrite matches_singleton. unfold Mongo.cond_holds, Mongo.bson_eqb.
  destruct (d !! "id") as [w|] eqn:Hw; cbn [default from_option id].
  - destruct i; cbn [ident_value num_of]; destruct (num_of w) eqn:Hn.
    1,3: destruct w; try discriminate Hn; symmetry; apply bool_decide_eq_false; congruence.
    all: apply bool_decide_ext; split; congruence.
  - destruct i; cbn [ident_value num_of]; symmetry; apply bool_decide_eq_false; congruence.
Qed.

Lemma split_first_None lib q l :
  Mongo.split_first lib q l = None
  <-> forall od, od ∈ l -> Mongo.matches lib q (Mongo.view od) = false.
Proof.
  induction l as [|od l IH]; cbn [Mongo.split_first].
  - split; [intros _ od Hin; by apply elem_of_nil in Hin | reflexivity].
  - destruct (Mongo.matches lib q (Mongo.view od)) eqn:Hm.
    + split; [discriminate|]. intros Hall. specialize (Hall od (list_elem_of_here _ _)). congruence.
    + rewrite fmap_None, IH. split.
      * intros Hall od' Hin. apply elem_of_cons in Hin as [->|Hin]; auto.
      * intros Hall od' Hin. apply Hall. by apply list_elem_of_further.
Qed.

Lemma split_first_absent lib id m :
  Mongo.split_first lib (by_id id) (Mongo.documents m) = None <-> absent id m.
Proof.
  rewrite split_first_None. unfold absent.
  split; intros Hall od Hin; specialize (Hall od Hin).
  - rewrite matches_by_id in Hall. by apply bool_decide_eq_false in Hall.
  - rewrite matches_by_id. by apply bool_decide_eq_false.
Qed.

(** C6.  NotFoundException discipline: over the model collection, each of
    Get, Update and Delete raises NotFoundException when no stored document
    carries the identifier in its field [id], and only then. *)
Theorem not_found_discipline (m : Mongo.t) (id : ident) (body : ProductUpdate.t) :
  (absent id m <-> raises_not_found (ProductUsecase.get id m).1)
  /\ (absent id m <-> raises_not_found (ProductUsecase.update id body m).1)
  /\ (absent id m <-> raises_not_found (ProductUsecase.delete id m).1).
Proof.
  rewrite <- (split_first_absent (Mongo.regex m)), get_mongo, update_mongo, delete_mongo.
  destruct (Mongo.split_first _ _) as [[[before hit] after]|]; cbn [fst].
  - repeat split; try discriminate.
    + intros (e & He & _). discriminate.
    + intros (e & He & Ht). exfalso. destruct (ProductUpdate.price body); cbn in He; [|discriminate].
      injection He as <-. discriminate.
    + intros (e & He & _). discriminate.
  - repeat split; intros _; try reflexivity; eexists; split; reflexivity.
Qed.
End NotFound.

(** Over any collection: when the existence check finds nothing, each of
    Get, Update and Delete raises NotFoundException. *)
Lemma not_found_when_find_one_misses {S} `{Env S} (id : ident) (body : ProductUpdate.t)
    (s s1 : S) :
  find_one (by_id id) s = (Ok None, s1) ->
  raises_not_found (ProductUsecase.get id s).1
  /\ raises_not_found (ProductUsecase.update id body s).1
  /\ raises_not_found (ProductUsecase.delete id s).1.
Proof.
  intros Hf. unfold ProductUsecase.get, ProductUsecase.update, ProductUsecase.delete.
  rewrite try_run, !bind_run. fold (by_id id). rewrite Hf. cbn [falsy].
  repeat split; eexists; split; reflexivity.
Qed.

Section Query.

Lemma map_Forall_insert_bool {A} (P : string -> A -> bool) (m : gmap string A) k v :
  m !! k = None ->
  bool_decide (map_Forall (fun k v => P k v = true) (<[k := v]> m))
  = P k v && bool_decide (map_Forall (fun k v => P k v = true) m).
Proof.
  intros Hk. rewrite <- (bool_decide_is_true (P k v)), <- bool_decide_and.
  apply bool_decide_ext.
  apply (map_Forall_insert (fun k v => P k v = true)). exact Hk.
Qed.

Lemma map_Forall_singleton_bool {A} (P : string -> A -> bool) k (v : A) :
  bool_decide (map_Forall (fun k v => P k v = true) ({[k := v]} : gmap string A)) = P k v.
Proof.
  rewrite <- (bool_decide_is_true (P k v)). apply bool_decide_ext.
  apply (map_Forall_singleton (fun k v => P k v = true)).
Qed.

Lemma build_price_filter lo hi :
  ProductUsecase.build_query_filter (Some (price_filters lo hi))
  = match lo, hi with
    | None, None => ∅
    | Some a, None => {["price" := COps {["$gte" := VFloat (float_of_Decimal a)]}]}
    | None, Some b => {["price" := COps {["$lte" := VFloat (float_of_Decimal b)]}]}
    | Some a, Some b =>
        {["price" := COps (<["$lte" := VFloat (float_of_Decimal b)]>
                             {["$gte" := VFloat (float_of_Decimal a)]})]}
    end.
Proof.
  unfold ProductUsecase.build_query_filter, price_filters.
  cbn [ProductFilters.min_price ProductFilters.max_price ProductFilters.name ProductFilters.status].
  destruct lo as [a|], hi as [b|]; reflexivity.
Qed.

Lemma price_filter_ok lib lo hi :
  Mongo.query_ok lib (ProductUsecase.build_query_filter (Some (price_filters lo hi)))
  = true.
Proof.
  rewrite build_price_filter. unfold Mongo.query_ok.
  destruct lo as [a|], hi as [b|].
  - rewrite (map_Forall_singleton_bool (fun _ c => Mongo.cond_ok lib c)).
    unfold Mongo.cond_ok.
    rewrite (map_Forall_insert_bool (Mongo.op_ok lib _)) by reflexivity.
    rewrite (map_Forall_singleton_bool (Mongo.op_ok lib _)). reflexivity.
  - rewrite (map_Forall_singleton_bool (fun _ c => Mongo.cond_ok lib c)).
    unfold Mongo.cond_ok.
    rewrite (map_Forall_singleton_bool (Mongo.op_ok lib _)). reflexivity.
  - rewrite (map_Forall_singleton_bool (fun _ c => Mongo.cond_ok lib c)).
    unfold Mongo.cond_ok.
    rewrite (map_Forall_singleton_bool (Mongo.op_ok lib _)). reflexivity.
  - apply (query_ok_empty lib).
Qed.

Lemma price_filter_matches lib lo hi d :
  Mongo.matches lib (ProductUsecase.build_query_filter (Some (price_filters lo hi))) d
  = within lo hi d.
Proof.
  rewrite build_price_filter. unfold within, bound.
  destruct lo as [a|], hi as [b|]; cbn [from_option].
  - rewrite matches_singleton. unfold Mongo.cond_holds.
    rewrite (map_Forall_insert_bool (Mongo.op_holds lib _ _)) by reflexivity.
    rewrite (map_Forall_singleton_bool (Mongo.op_holds lib _ _)).
    apply andb_comm.
  - rewrite matches_singleton. unfold Mongo.cond_holds.
    rewrite (map_Forall_singleton_bool (Mongo.op_holds lib _ _)).
    symmetry. apply andb_true_r.
  - rewrite matches_singleton. unfold Mongo.cond_holds.
    rewrite (map_Forall_singleton_bool (Mongo.op_holds lib _ _)). reflexivity.
  - apply matches_empty.
Qed.





End Query.

Section CreateFails.
Context {S : Type} `{Env S}.

Lemma create_except_run result e (s : S) :
  ProductUsecase.create_except result e s
  = (Raise (create_failed e),
     create_logged e (match result ≫= inserted_id with
                      | Some oid => after_rollback oid s
                      | None => s
                      end)).
Proof.
  unfold ProductUsecase.create_except, after_rollback, create_logged.
  destruct (result ≫= inserted_id) as [oid|].
  - rewrite !bind_run, try_run, bind_run.
    destruct (delete_one _ s) as [[r|e'] s3]; reflexivity.
  - reflexivity.
Qed.

(** C7, as amended.  Whenever Create fails it raises InsertionException.
    When the insert call raised, or reported no identifier, nothing is
    undone and the failure is logged.  When an identifier was reported and
    building the record then failed, a compensating [delete_one] on that
    [_id] is tried first: a line is logged if it went through, and if it
    raised the exception is dropped without any log line; either way the
    original failure is then logged and raised as InsertionException. *)
Theorem create_failure_handling (base : doc) (body : ProductIn.t) (s s' : S) (e : exn) :
  ProductUsecase.create base body s = (Raise e, s') ->
  exn_type e = InsertionException
  /\ exists model s1,
       ProductModel.new body s = (Ok model, s1)
       /\ let d := ProductModel.model_dump base model in
          match insert_one d s1 with
          | (Raise e0, s2) => e = create_failed e0 /\ s' = create_logged e0 s2
          | (Ok result, s2) =>
              match inserted_id result with
              | None => e = create_failed no_inserted_id
                        /\ s' = create_logged no_inserted_id s2
              | Some oid =>
                  exists e0, ProductOut_with_id d (ObjectId_str oid) = Raise e0
                    /\ e = create_failed e0
                    /\ s' = create_logged e0 (after_rollback oid s2)
              end
          end.
Proof.
  unfold ProductUsecase.create.
  destruct (ProductModel.new body s) as [[model|e1] s1] eqn:Hnew.
  2:{ exfalso. revert Hnew. unfold ProductModel.new. rewrite !bind_run.
      unfold now. destruct (utcnow s) as [t1 s1']. rewrite bind_run.
      destruct (utcnow s1') as [t2 s2']. discriminate. }
  intros Hc.
  assert (He : exn_type e = InsertionException).
  { destruct (insert_one _ s1) as [[result|e0] s2].
    - destruct (inserted_id result) as [oid|].
      + destruct (ProductOut_with_id _ _); [discriminate|].
        rewrite create_except_run in Hc. by injection Hc as <- _.
      + rewrite create_except_run in Hc. by injection Hc as <- _.
    - rewrite create_except_run in Hc. by injection Hc as <- _. }
  split; [exact He|]. exists model, s1. split; [reflexivity|]. cbv zeta.
  destruct (insert_one _ s1) as [[result|e0] s2].
  - destruct (inserted_id result) as [oid|] eqn:Hoid.
    + destruct (ProductOut_with_id _ _) as [out|e0]; [discriminate|].
      rewrite create_except_run in Hc. cbn [mbind option_bind] in Hc. rewrite Hoid in Hc.
      injection Hc as <- <-. exists e0. auto.
    + rewrite create_except_run in Hc. cbn [mbind option_bind] in Hc. rewrite Hoid in Hc.
      injection Hc as <- <-. auto.
  - rewrite create_except_run in Hc. cbn [mbind option_bind] in Hc.
    injection Hc as <- <-. auto.
Qed.
End CreateFails.

(** The theorem of C7 applied to a run in which the insert goes through,
    the record cannot be built and the compensating delete fails. *)
Lemma create_failure_handling_witness :
  exn_type (create_failed
     (mk_exn TypeError
        "store.schemas.product.ProductOut() got multiple values for keyword argument 'id'"))
  = InsertionException.
Proof.
  refine (proj1 (create_failure_handling {["id" := VUUID 7]} widget second_call_fails
            (ProductUsecase.create {["id" := VUUID 7]} widget second_call_fails).2 _ _)).
  vm_compute. reflexivity.
Defined.

(** C7, counterexample.  The insert goes through, the record cannot be
    built, and the compensating delete raises "connection reset": Create
    raises InsertionException for the first failure, the only line logged
    is the one for that failure, and the inserted document stays.  The
    failure of the compensating delete is logged nowhere. *)
Lemma rollback_failure_leaves_no_log :
  let r := ProductUsecase.create {["id" := VUUID 7]} widget second_call_fails in
  r.1 = Raise (create_failed
          (mk_exn TypeError
             "store.schemas.product.ProductOut() got multiple values for keyword argument 'id'"))
  /\ Mongo.logs (Chaos.store r.2)
     = [(ERROR, "Error inserting product: store.schemas.product.ProductOut() got multiple values for keyword argument 'id'")]
  /\ length (Mongo.documents (Chaos.store r.2)) = 1%nat.
Proof. vm_compute. repeat split; reflexivity. Qed.


(** The two other ways Create fails: the insert call raises, and the
    insert reports no identifier.  Nothing is deleted in either. *)
Example create_fails_without_rollback :
  let down := {| Chaos.store := Mongo.empty; Chaos.schedule := [Chaos.Down boom] |} in
  let silent := {| Chaos.store := Mongo.empty; Chaos.schedule := [Chaos.Unreported] |} in
  (ProductUsecase.create ∅ widget down).1 = Raise (create_failed boom)
  /\ Mongo.logs (Chaos.store (ProductUsecase.create ∅ widget down).2)
     = [(ERROR, "Error inserting product: connection reset")]
  /\ (ProductUsecase.create ∅ widget silent).1 = Raise (create_failed no_inserted_id)
  /\ length (Mongo.documents (Chaos.store (ProductUsecase.create ∅ widget silent).2)) = 1%nat.
Proof. vm_compute. repeat split; reflexivity. Qed.

Section DeletePath.
Lemma split_first_Some lib q l before hit after :
  Mongo.split_first lib q l = Some (before, hit, after) ->
  l = (before ++ hit :: after)%list
  /\ Mongo.matches lib q (Mongo.view hit) = true
  /\ forall od, od ∈ before -> Mongo.matches lib q (Mongo.view od) = false.
Proof.
  revert before. induction l as [|od l IH]; intros before; cbn [Mongo.split_first]; [discriminate|].
  destruct (Mongo.matches lib q (Mongo.view od)) eqn:Hm.
  - intros [= <- <- <-]. repeat split; [exact Hm|]. intros od' Hin. by apply elem_of_nil in Hin.
  - destruct (Mongo.split_first lib q l) as [[[b h] a]|]; [|discriminate].
    cbn [fmap option_fmap option_map]. intros [= <- <- <-].
    destruct (IH b eq_refl) as (-> & Hh & Hb). repeat split; [exact Hh|].
    intros od' Hin. apply elem_of_cons in Hin as [->|Hin]; auto.
Qed.

(** C9.  When some stored document carries the identifier, Delete removes
    the first such document and returns [True].  Over any collection, when
    the existence check finds a document and [delete_one] then reports
    zero documents removed, Delete returns [False] and does not raise. *)
Theorem delete_success_path :
  (forall (m : Mongo.t) (id : ident),
      (exists od, od ∈ Mongo.documents m /\ Mongo.view od !! "id" = Some (ident_value id)) ->
      exists before hit after,
        Mongo.documents m = (before ++ hit :: after)%list
        /\ Mongo.view hit !! "id" = Some (ident_value id)
        /\ (forall od, od ∈ before -> Mongo.view od !! "id" ≠ Some (ident_value id))
        /\ ProductUsecase.delete id m
           = (Ok true, Mongo.set_documents (before ++ after) m))
  /\ (forall (S : Type) (E : Env S) (id : ident) (s s1 s2 : S) (d : doc)
             (r : DeleteResult),
        find_one (by_id id) s = (Ok (Some d), s1) ->
        d ≠ ∅ ->
        delete_one (by_id id) s1 = (Ok r, s2) ->
        deleted_count r = 0 ->
        ProductUsecase.delete id s = (Ok false, s2)).
Proof.
  split.
  - intros m i (od & Hin & Hid).
    destruct (Mongo.split_first (Mongo.regex m) (by_id i) (Mongo.documents m))
      as [[[before hit] after]|] eqn:Hs.
    + destruct (split_first_Some _ _ _ _ _ _ Hs) as (Hl & Hh & Hb).
      exists before, hit, after. rewrite matches_by_id in Hh.
      apply bool_decide_eq_true in Hh. repeat split; [exact Hl | exact Hh | |].
      * intros od' Hin'. specialize (Hb od' Hin'). rewrite matches_by_id in Hb.
        by apply bool_decide_eq_false in Hb.
      * rewrite delete_mongo, Hs. reflexivity.
    + apply split_first_absent in Hs. destruct (Hs od Hin Hid).
  - intros S E i s s1 s2 d r Hf Hd Hdel Hr.
    unfold ProductUsecase.delete. rewrite bind_run. fold (by_id i). rewrite Hf.
    unfold falsy. rewrite bool_decide_eq_false_2 by exact Hd.
    rewrite bind_run, Hdel, Hr. reflexivity.
Qed.
End DeletePath.

(** The theorem of C9 applied to the seeded collection, and to the same
    collection with another client deleting the product between the
    existence check and the delete. *)
Lemma delete_success_path_witness :
  (exists before hit after,
      Mongo.documents seeded = (before ++ hit :: after)%list
      /\ Mongo.view hit !! "id" = Some (ident_value (IdUUID 7))
      /\ (forall od, od ∈ before -> Mongo.view od !! "id" ≠ Some (ident_value (IdUUID 7)))
      /\ ProductUsecase.delete (IdUUID 7) seeded
         = (Ok true, Mongo.set_documents (before ++ after) seeded))
  /\ ProductUsecase.delete (IdUUID 7) overtaken
     = (Ok false, {| Chaos.store := Mongo.set_documents [] seeded; Chaos.schedule := [] |}).
Proof.
  split.
  - apply (proj1 delete_success_path seeded (IdUUID 7)).
    exists ({| oid_bits := 1 |}, seed_doc). split; [apply list_elem_of_here | vm_compute; reflexivity].
  - apply (proj2 delete_success_path Chaos.t _ (IdUUID 7) overtaken
             {| Chaos.store := seeded; Chaos.schedule := [Chaos.Raced (by_id (IdUUID 7))] |}
             _ (Mongo.view ({| oid_bits := 1 |}, seed_doc)) {| deleted_count := 0 |}).
    + vm_compute. reflexivity.
    + apply view_nonempty.
    + vm_compute. reflexivity.
    + reflexivity.
Defined.

(** C1, at the failing input.  Create of the sample product in an empty
    collection returns a record whose [id] is the 24-digit string of the
    generated [_id]; Get with that [id] raises NotFoundException, because
    it looks the identifier up in the field [id], which the stored
    document does not have.  If the base model does contribute a field
    [id], Create itself fails: the keyword [id] is then given twice. *)
Theorem create_then_get_not_found :
  match ProductUsecase.create ∅ widget Mongo.empty with
  | (Ok out, m) =>
      out_fields out !! "id" = Some (VStr "000000000000000000000001")
      /\ (ProductUsecase.get (IdStr "000000000000000000000001") m).1
         = Raise (mk_exn NotFoundException
                    "Product not found with filter: 000000000000000000000001")
  | (Raise _, _) => False
  end
  /\ (ProductUsecase.create {["id" := VUUID 7]} widget Mongo.empty).1
     = Raise (mk_exn InsertionException
         "Failed to create product: store.schemas.product.ProductOut() got multiple values for keyword argument 'id'").
Proof. vm_compute. repeat split; reflexivity. Qed.

(** C5, at the failing input.  A patch carrying only a price, applied to
    the stored product, raises InsertionException and leaves the stored
    documents as they were: the price is a Decimal128, so the [elif] of
    lines 79 and 80 is reached, and its [isinstance] check against the
    [Annotated] alias raises TypeError. *)
Theorem update_with_price_raises :
  let patch := ProductUpdate.new None (Some (DFin false 1250 (-2))) None ProductUpdate.Default in
  let r := (patch ≫= ProductUsecase.update (IdUUID 7)) seeded in
  r.1 = Raise (mk_exn InsertionException
          "Failed to update product: Subscripted generics cannot be used with class and instance checks")
  /\ Mongo.documents r.2 = Mongo.documents seeded.
Proof. vm_compute. split; reflexivity. Qed.

(** C8, at the failing input.  The product was created at time 1000 and
    the clock reads 2000.  A patch carrying [updated_at] = 5 is applied:
    the record returned has [created_at] = 1000 and [updated_at] = 5.  The
    time read at line 74 goes into [update_data], under the key
    [update_at], and [update_data] is not what is written. *)
Theorem update_takes_updated_at_from_body :
  let patch := ProductUpdate.new (Some 7) None None (ProductUpdate.Given (Some 5)) in
  let r := (patch ≫= ProductUsecase.update (IdUUID 7)) seeded in
  Mongo.clock seeded = 2000
  /\ field "quantity" r = Some (VInt 7)
  /\ exists created_at updated_at,
       field "created_at" r = Some (VDatetime created_at)
       /\ field "updated_at" r = Some (VDatetime updated_at)
       /\ created_at = 1000 /\ updated_at = 5 /\ updated_at < created_at.
Proof.
  split; [reflexivity|]. split; [vm_compute; reflexivity|].
  exists 1000, 5. repeat split; vm_compute; reflexivity.
Qed.

Section Identifiers.
Lemma string_length_app s1 s2 :
  String.length (s1 ++ s2) = (String.length s1 + String.length s2)%nat.
Proof.
  induction s1 as [|c s1 IH]; [reflexivity|].
  simpl. by rewrite IH.
Qed.

Lemma hex_length digits n : String.length (hex digits n) = digits.
Proof.
  revert n. induction digits as [|k IH]; intros n; [reflexivity|].
  cbn [hex]. rewrite string_length_app, IH. simpl. lia.
Qed.

Lemma ObjectId_str_nonempty o : ObjectId_str o ≠ "".
Proof.
  intros Heq. pose proof (hex_length 24 (oid_bits o)) as Hlen.
  unfold ObjectId_str in Heq. rewrite Heq in Hlen. discriminate.
Qed.

(** What [create] stores has no field [id] of its own, so looking the
    returned identifier up in that field finds nothing new. *)
Lemma created_record_not_retrievable base body m :
  base !! "id" = None ->
  absent (IdStr (ObjectId_str (fresh_id m))) m ->
  raises_not_found
    (ProductUsecase.get (IdStr (ObjectId_str (fresh_id m))) (after_create base body m)).1.
Proof.
  intros Hid Habs. rewrite get_mongo. cbn [fst].
  assert (Hnone : Mongo.split_first (Mongo.regex (after_create base body m))
                    (by_id (IdStr (ObjectId_str (fresh_id m))))
                    (Mongo.documents (after_create base body m)) = None).
  { apply split_first_absent. intros od Hin. cbn [after_create Mongo.documents] in Hin.
    apply elem_of_app in Hin as [Hin|Hin]; [by apply Habs|].
    apply list_elem_of_singleton in Hin as ->. unfold Mongo.view. cbn [fst snd].
    rewrite lookup_insert_ne by discriminate. rewrite model_dump_id, Hid. discriminate. }
  rewrite Hnone. eexists. split; reflexivity.
Qed.
End Identifiers.

Section Timestamps.
Lemma create_timestamps_ordered base body m :
  stored_doc base body m !! "created_at" = Some (VDatetime (Mongo.clock m))
  /\ stored_doc base body m !! "updated_at"
     = Some (VDatetime (Mongo.clock m + Z.of_N (hd 0%N (Mongo.ticks m))))
  /\ Mongo.clock m <= Mongo.clock m + Z.of_N (hd 0%N (Mongo.ticks m)).
Proof.
  unfold stored_doc, ProductModel.model_dump. cbn [model_at ProductModel.created_at ProductModel.updated_at].
  split; [|split].
  - rewrite lookup_insert_ne by discriminate. apply lookup_insert_eq.
  - apply lookup_insert_eq.
  - lia.
Qed.

Lemma dump_created_at body :
  ProductUpdate.model_dump_exclude_none body !! "created_at" = None.
Proof.
  unfold ProductUpdate.model_dump_exclude_none, ProductUpdate.set_field.
  destruct body as [q p st u]; cbn [ProductUpdate.quantity ProductUpdate.price ProductUpdate.status ProductUpdate.updated_at].
  destruct q, p, st, u; cbn [fmap option_fmap option_map];
    repeat (rewrite lookup_insert_ne by discriminate); apply lookup_empty.
Qed.

(** [update] leaves the field [created_at] of the document as it was. *)
Lemma update_keeps_created_at body hit :
  Mongo.view (updated body hit) !! "created_at" = Mongo.view hit !! "created_at".
Proof.
  unfold Mongo.view, updated. cbn [fst snd].
  rewrite !lookup_insert_ne by discriminate.
  rewrite lookup_union_r by apply dump_created_at. reflexivity.
Qed.

(** With a price in the body, [update] of a stored record always raises
    and writes nothing. *)
Lemma update_with_price_always_raises id body m p :
  ProductUpdate.price body = Some p ->
  ~ absent id m ->
  (ProductUsecase.update id body m).1
  = Raise (mk_exn InsertionException
             ("Failed to update product: " ++ message generics_error))
  /\ Mongo.documents (ProductUsecase.update id body m).2 = Mongo.documents m.
Proof.
  intros Hp Hpres. rewrite update_mongo.
  destruct (Mongo.split_first _ _) as [[[before hit] after]|] eqn:Hs.
  - rewrite Hp. split; reflexivity.
  - by apply split_first_absent in Hs.
Qed.
End Timestamps.

Section Price.
(** When the record cannot be built from what was stored, [create] over
    the model collection deletes the stored document again and raises. *)
Lemma create_rolled_back base body (m : Mongo.t) e0 :
  ProductOut_with_id (stored_doc base body m) (ObjectId_str (fresh_id m)) = Raise e0 ->
  id_is_fresh m ->
  exists m',
    ProductUsecase.create base body m = (Raise (create_failed e0), m')
    /\ Mongo.documents m' = Mongo.documents m
    /\ Mongo.logs m'
       = List.app (Mongo.logs m)
           [(INFO, "Rollback: Removed product " ++ ObjectId_str (fresh_id m));
            (ERROR, "Error inserting product: " ++ message e0)].
Proof.
  intros He0 Hfresh. rewrite create_run, He0, create_except_run.
  cbn [mbind option_bind inserted_id]. unfold after_rollback.
  change (delete_one ?q ?s) with (Mongo.delete_one q s).
  unfold Mongo.delete_one. rewrite query_ok_eq. cbn [after_create Mongo.documents Mongo.regex].
  rewrite (split_first_at _ _ (Mongo.documents m) (fresh_id m, stored_doc base body m) []).
  - eexists. split; [reflexivity|]. split.
    + cbn. apply app_nil_r.
    + cbn. rewrite <- app_assoc. reflexivity.
  - rewrite matches_object_id. by apply bool_decide_eq_true.
  - intros od Hin. rewrite matches_object_id. apply bool_decide_eq_false. by apply Hfresh.
Qed.

Lemma empty_is_fresh : id_is_fresh Mongo.empty.
Proof. intros od Hin. apply elem_of_nil in Hin. destruct Hin. Qed.

(** C3, as amended.  Create turns the price it is given into the nearest
    binary64 value and stores that float.  When the float is finite, the
    record Create returns carries the decimal spelling of the float, not
    the price given.  When it is not, the record cannot be built: Create
    raises InsertionException for the library's validation error and
    leaves the stored documents as they were.  Query turns its bounds into
    floats in the same way.  The base model contributes no field [id],
    and the document is one the driver encodes. *)
Theorem create_stores_price_as_float (base : doc) (body : ProductIn.t) (m : Mongo.t) :
  base !! "id" = None ->
  Mongo.encodable (stored_doc base body m) = true ->
  let f := float_of_Decimal (ProductIn.price body) in
  (is_finite f = true ->
   exists out,
     ProductUsecase.create base body m = (Ok out, after_create base body m)
     /\ out_fields out !! "price" = Some (VDecimal (Decimal_of_str_float f))
     /\ Mongo.documents (after_create base body m)
        = (Mongo.documents m ++ [(fresh_id m, stored_doc base body m)])%list
     /\ stored_doc base body m !! "price" = Some (VFloat f))
  /\ (is_finite f = false ->
      id_is_fresh m ->
      exists e0 m',
        ProductUsecase.create base body m = (Raise (create_failed e0), m')
        /\ exn_type e0 = ValidationError
        /\ exn_type (create_failed e0) = InsertionException
        /\ Mongo.documents m' = Mongo.documents m)
  /\ (forall lo hi : Decimal,
        ProductUsecase.build_query_filter (Some (price_filters (Some lo) (Some hi)))
        = {["price" := COps (<["$lte" := VFloat (float_of_Decimal hi)]>
                               {["$gte" := VFloat (float_of_Decimal lo)]})]}).
Proof.
  intros Hid _ f. split; [|split].
  - intros Hfin. exists (created body m). split; [by apply create_mongo|].
    split; [|split].
    + unfold created. cbn [out_fields].
      repeat (rewrite lookup_insert_ne by discriminate). apply lookup_insert_eq.
    + reflexivity.
    + apply stored_doc_price.
  - intros Hinf Hfresh.
    set (e0 := validation_error (ProductOut_errors (stored_doc base body m)) "ProductOut").
    destruct (create_rolled_back base body m e0) as (m' & Hc & Hd & _); [|exact Hfresh|].
    + unfold ProductOut_with_id.
      rewrite model_dump_id, Hid, stored_doc_validates. fold f. by rewrite Hinf.
    + exists e0, m'. auto.
  - intros lo hi. apply (build_price_filter (Some lo) (Some hi)).
Qed.
End Price.

(** The theorem of C3 applied to a product priced 12.50, and to one priced
    1E+400, which no binary64 value holds. *)
Lemma create_stores_price_as_float_witness :
  (exists out,
     ProductUsecase.create ∅ (priced (DFin false 1250 (-2))) Mongo.empty
     = (Ok out, after_create ∅ (priced (DFin false 1250 (-2))) Mongo.empty)
     /\ out_fields out !! "price" = Some (VDecimal (DFin false 125 (-1)))
     /\ stored_doc ∅ (priced (DFin false 1250 (-2))) Mongo.empty !! "price"
        = Some (VFloat (S754_finite false 7036874417766400 (-49))))
  /\ (exists e0 m',
        ProductUsecase.create ∅ (priced (DFin false 1 400)) Mongo.empty
        = (Raise (create_failed e0), m')
        /\ exn_type e0 = ValidationError
        /\ Mongo.documents m' = []).
Proof.
  assert (Hid : (∅ : doc) !! "id" = None) by reflexivity.
  split.
  - assert (Henc : Mongo.encodable (stored_doc ∅ (priced (DFin false 1250 (-2))) Mongo.empty)
                   = true) by (vm_compute; reflexivity).
    pose proof (create_stores_price_as_float ∅ (priced (DFin false 1250 (-2)))
                  Mongo.empty Hid Henc) as H.
    cbv zeta in H. destruct H as (Hfin & _ & _).
    destruct Hfin as (out & Hc & Hp & _ & Hs); [reflexivity|].
    exists out. split; [exact Hc|]. split; [exact Hp | exact Hs].
  - assert (Henc : Mongo.encodable (stored_doc ∅ (priced (DFin false 1 400)) Mongo.empty)
                   = true) by (vm_compute; reflexivity).
    pose proof (create_stores_price_as_float ∅ (priced (DFin false 1 400))
                  Mongo.empty Hid Henc) as H.
    cbv zeta in H. destruct H as (_ & Hinf & _).
    destruct Hinf as (e0 & m' & Hc & He & _ & Hd); [reflexivity | exact empty_is_fresh |].
    exists e0, m'. split; [exact Hc|]. split; [exact He | exact Hd].
Defined.

(** C3, counterexample.  A product is created with the price
    9007199254740993.  The number stored is the float 9007199254740992,
    and the record Create returns has the price 9007199254740992.0: a
    decimal, and not the one supplied. *)
Lemma price_precision_lost :
  match ProductUsecase.create ∅ (priced two_pow_53_plus_1) Mongo.empty with
  | (Ok out, m) =>
      out_fields out !! "price" = Some (VDecimal (DFin false 90071992547409920 (-1)))
      /\ xnum_eqb (xnum_of_Decimal (DFin false 90071992547409920 (-1)))
                  (xnum_of_Decimal two_pow_53_plus_1) = false
      /\ ((fun d => d !! "price") <$> visible m)
         = [Some (VFloat (S754_finite false 4503599627370496 1))]
  | (Raise _, _) => False
  end
  /\ xnum_of_float (S754_finite false 4503599627370496 1) = XFin (9007199254740992 # 1)
  /\ xnum_of_Decimal two_pow_53_plus_1 = XFin (9007199254740993 # 1).
Proof. vm_compute. repeat split; reflexivity. Qed.


Section NameFilter.
Lemma not_meta c :
  Regex.is_meta c = false ->
  Ascii.eqb c "\"%char = false /\ Ascii.eqb c "."%char = false
  /\ Ascii.eqb c "|"%char = false /\ Ascii.eqb c "$"%char = false
  /\ Ascii.eqb c "^"%char = false.
Proof.
  intros Hc. unfold Regex.is_meta, Regex.metachars in Hc.
  cbn [list_ascii_of_string existsb] in Hc.
  repeat (apply orb_false_iff in Hc as [? Hc]). auto.
Qed.

Lemma plain_compile_branch p :
  plain p = true -> Regex.compile_branch p = Some (literal_atoms p, false, None).
Proof.
  induction p as [|c p IH]; [reflexivity|].
  cbn [plain]. intros Hp. apply andb_true_iff in Hp as [Hc Hp].
  apply negb_true_iff in Hc. cbn [Regex.compile_branch].
  destruct (not_meta c Hc) as (-> & -> & -> & -> & _).
  rewrite Hc, (IH Hp). reflexivity.
Qed.

Lemma plain_compile p : plain p = true -> Regex.compile p = Some [literal p].
Proof.
  intros Hp. unfold Regex.compile. cbn [Regex.compile_branches].
  destruct p as [|c p].
  - reflexivity.
  - pose proof Hp as Hp'. cbn [plain] in Hp'. apply andb_true_iff in Hp' as [Hc _].
    apply negb_true_iff in Hc. destruct (not_meta c Hc) as (_ & _ & _ & _ & ->).
    by rewrite (plain_compile_branch _ Hp).
Qed.

Lemma lower_eqb a b : Ascii.eqb (Regex.lower a) (Regex.lower b) = true <-> Regex.lower a = Regex.lower b.
Proof. apply Ascii.eqb_eq. Qed.

Lemma match_here_literal needle s :
  Regex.match_here true (literal_atoms needle) s = true
  <-> exists post, fold_case s = fold_case needle ++ post.
Proof.
  revert s. induction needle as [|c needle IH]; intros s.
  - split; [intros _; by exists (fold_case s) | reflexivity].
  - cbn [literal_atoms list_ascii_of_string fmap list_fmap].
    change (list_fmap _ _ Regex.Lit (list_ascii_of_string needle)) with (literal_atoms needle).
    destruct s as [|c' s]; cbn [Regex.match_here fold_case Regex.atom_matches].
    + split; [discriminate|]. intros [post Hpost]. discriminate.
    + rewrite andb_true_iff, lower_eqb, IH. cbn [append]. split.
      * intros [Hc [post Hpost]]. exists post. by rewrite Hc, Hpost.
      * intros [post [= Hc Hpost]]. eauto.
Qed.

Lemma search_literal needle s :
  Regex.search true (literal_atoms needle) s = true <-> contains_caseless needle s.
Proof.
  unfold contains_caseless. induction s as [|c s IH]; cbn [Regex.search].
  - rewrite orb_false_r, match_here_literal. split.
    + intros [post Hpost]. by exists "", post.
    + intros (pre & post & H). destruct pre; [|discriminate]. by exists post.
  - rewrite orb_true_iff, match_here_literal, IH. split.
    + intros [[post Hpost]|(pre & post & Hpp)].
      * by exists "", post.
      * exists (String (Regex.lower c) pre), post. cbn [fold_case append]. by rewrite Hpp.
    + intros (pre & post & Hpp). destruct pre as [|a pre].
      * left. by exists post.
      * right. cbn [fold_case append] in Hpp. injection Hpp as _ Hpp. eauto.
Qed.


Lemma plain_read lib p :
  plain p = true ->
  Regex.read lib p = Some (fun caseless s => existsb (Regex.found_in caseless s) [literal p]).
Proof. intros Hp. unfold Regex.read. by rewrite (plain_compile _ Hp). Qed.

(** The condition built for a name filter is one the server reads when
    the pattern is. *)
Lemma name_cond_reads lib name :
  Mongo.cond_ok lib (name_cond name) = bool_decide (is_Some (Regex.read lib name)).
Proof.
  unfold name_cond, Mongo.cond_ok.
  rewrite (map_Forall_insert_bool (Mongo.op_ok lib _)) by reflexivity.
  rewrite (map_Forall_singleton_bool (Mongo.op_ok lib _)).
  change (Mongo.op_ok lib _ "$options" _) with true. cbn [andb].
  reflexivity.
Qed.

(** It holds of the documents in whose name the pattern is found. *)
Lemma name_cond_finds lib name (d : doc) :
  Mongo.cond_holds lib (d !! "name") (name_cond name)
  = match Regex.read lib name with
    | Some found => name_found found d
    | None => false
    end.
Proof.
  unfold name_cond, Mongo.cond_holds.
  rewrite (map_Forall_insert_bool (Mongo.op_holds lib _ _)) by reflexivity.
  rewrite (map_Forall_singleton_bool (Mongo.op_holds lib _ _)).
  change (Mongo.op_holds lib _ _ "$options" _) with true. cbn [andb].
  change (Mongo.op_holds lib ?ops ?f "$regex" (VStr name))
    with (match f, Mongo.caseless_of ops with
          | Some (VStr s), Some caseless =>
              match Regex.read lib name with
              | Some found => found caseless s
              | None => false
              end
          | _, _ => false
          end).
  change (Mongo.caseless_of _) with (Some true). unfold name_found.
  destruct (Regex.read lib name); destruct (d !! "name") as [[]|]; reflexivity.
Qed.

Lemma name_found_literal needle (d : doc) :
  name_found (fun caseless s => existsb (Regex.found_in caseless s) [literal needle]) d
  = true
  <-> named needle d.
Proof.
  unfold name_found, named. destruct (d !! "name") as [v|].
  - destruct v; try (split; [discriminate | intros (s' & [=] & _)]).
    cbn [existsb Regex.found_in literal Regex.from_start Regex.to_end Regex.atoms].
    rewrite orb_false_r, search_literal. split; [eauto|]. by intros (s' & [= <-] & Hc).
  - split; [discriminate | intros (s' & [=] & _)].
Qed.


End NameFilter.




Section ListHandler.


End ListHandler.



(** The usecase does honour a status filter; the handler never hands it
    one.  The seeded product is active: asked for inactive products, the
    usecase returns none and the handler returns the product. *)
Example handler_drops_a_filter_the_usecase_honours :
  (ProductUsecase.query
     (Some {| ProductFilters.min_price := None; ProductFilters.max_price := None;
              ProductFilters.name := None; ProductFilters.status := Some false |})
     seeded).1 = Ok []
  /\ (Controller.query None None None (Some false) seeded).1 = Ok (all_products seeded)
  /\ length (all_products seeded) = 1%nat.
Proof. vm_compute. repeat split; reflexivity. Qed.

(** * Further properties *)

(** ** Exceptions and responses, over any collection *)

Section AnyCollection.
Context {S : Type} `{Env S}.

Lemma model_new_ok (body : ProductIn.t) (s : S) :
  exists model s1, ProductModel.new body s = (Ok model, s1).
Proof.
  unfold ProductModel.new. rewrite !bind_run. unfold now.
  destruct (utcnow s) as [t1 s1]. rewrite bind_run.
  destruct (utcnow s1) as [t2 s2]. eauto.
Qed.

Lemma create_raises_insertion (base : doc) (body : ProductIn.t) (s s' : S) (e : exn) :
  ProductUsecase.create base body s = (Raise e, s') ->
  exn_type e = InsertionException.
Proof.
  unfold ProductUsecase.create.
  destruct (model_new_ok body s) as (model & s1 & ->).
  destruct (insert_one _ s1) as [[result|e0] s2].
  - destruct (match inserted_id result with Some _ => _ | None => _ end) as [out|e0];
      [discriminate|].
    rewrite create_except_run. by intros [= <- _].
  - rewrite create_except_run. by intros [= <- _].
Qed.

(** X1.  Whatever the collection does, [POST /] either returns the record
    Create returned, or answers 400 with the message of the exception
    Create raised and logs nothing of its own; it never answers 422 or
    500 and lets no exception through. *)
Theorem post_answers_201_or_400 (base : doc) (body : ProductIn.t) (s : S) :
  (exists out, (Routes.post base body s).1 = Routes.Returned out
               /\ (ProductUsecase.create base body s).1 = Ok out)
  \/ (exists e, (ProductUsecase.create base body s).1 = Raise e
                /\ (Routes.post base body s).1
                   = Routes.HTTPException 400 ("Error creating product: " ++ message e)
                /\ (Routes.post base body s).2 = (ProductUsecase.create base body s).2).
Proof.
  unfold Routes.post.
  destruct (ProductUsecase.create base body s) as [[out|e] s'] eqn:Hc.
  - left. eauto.
  - right. rewrite (create_raises_insertion _ _ _ _ _ Hc). eauto.
Qed.

(** X5.  Whatever the collection does, an exception Update raises is a
    NotFoundException or an InsertionException. *)
Theorem update_raises_two_kinds (id : ident) (body : ProductUpdate.t) (s s' : S) (e : exn) :
  ProductUsecase.update id body s = (Raise e, s') ->
  exn_type e = NotFoundException \/ exn_type e = InsertionException.
Proof.
  unfold ProductUsecase.update. rewrite try_run.
  match goal with
  | |- (match ?x with _ => _ end) = _ -> _ => destruct x as [[out|e0] s0]
  end; [discriminate|].
  destruct (exn_type e0) eqn:He0;
    [intros [= <- _]; by left | rewrite bind_run; intros [= <- _]; by right ..].
Qed.

(** X3.  Whatever the collection does, [PATCH /{id}] returns the record
    Update returned, or answers 404 "Product not found", or answers 400
    with the message of the exception Update raised; it never answers 500
    and lets no exception through. *)
Theorem patch_answers_200_404_or_400 (id : N) (body : ProductUpdate.t) (s : S) :
  match (Routes.patch id body s).1 with
  | Routes.Returned out => (ProductUsecase.update (IdUUID id) body s).1 = Ok out
  | Routes.HTTPException status_code detail =>
      (status_code = 404 /\ detail = "Product not found")
      \/ (status_code = 400
          /\ exists e, (ProductUsecase.update (IdUUID id) body s).1 = Raise e
                       /\ detail = "Error updating product: " ++ message e)
  | Routes.Unhandled _ => False
  end.
Proof.
  unfold Routes.patch, ProductUsecase.update.
  match goal with
  | |- context [try_except ?m ?h s] =>
      rewrite (try_run m h s); destruct (m s) as [[out|e0] s0]
  end; [reflexivity|].
  destruct (exn_type e0) eqn:He0;
    [cbn; rewrite He0; by left | rewrite bind_run; cbn; right; eauto ..].
Qed.

(** X4.  Whatever the collection does, [DELETE /{id}] never answers 400:
    it returns when Delete returned [True], answers 404 with the message
    of a NotFoundException, and answers 500 in every other case, the one
    where Delete returned [False] included (the 400 it raises for that
    inside its [try] is caught by its own [except Exception]). *)
Theorem delete_never_answers_400 (id : N) (s : S) :
  match (Routes.delete id s).1 with
  | Routes.Returned _ => (ProductUsecase.delete (IdUUID id) s).1 = Ok true
  | Routes.HTTPException status_code detail =>
      (status_code = 404
       /\ exists e, (ProductUsecase.delete (IdUUID id) s).1 = Raise e
                    /\ exn_type e = NotFoundException /\ detail = message e)
      \/ (status_code = 500 /\ detail = Routes.internal_detail
          /\ ((ProductUsecase.delete (IdUUID id) s).1 = Ok false
              \/ exists e, (ProductUsecase.delete (IdUUID id) s).1 = Raise e
                           /\ exn_type e ≠ NotFoundException))
  | Routes.Unhandled _ => False
  end.
Proof.
  unfold Routes.delete, Routes.delete_try.
  destruct (ProductUsecase.delete (IdUUID id) s) as [[[|]|e] s']; cbn [negb fst].
  - reflexivity.
  - right. auto.
  - destruct (exn_type e) eqn:He; cbn [fst];
      [left; eauto | right; repeat split; right; exists e; rewrite He; done ..].
Qed.

(** X8.  When the existence check itself fails with an exception [e] of
    the driver: Get and Delete raise [e] as it is, Update logs it and
    raises an InsertionException carrying its message; [GET /{id}] lets
    [e] through, [DELETE /{id}] answers 500 and [PATCH /{id}] answers
    400. *)
Theorem existence_check_failure_surfaces (id : N) (body : ProductUpdate.t)
    (s s1 : S) (e : exn) :
  find_one (by_id (IdUUID id)) s = (Raise e, s1) ->
  exn_type e ≠ NotFoundException ->
  ProductUsecase.get (IdUUID id) s = (Raise e, s1)
  /\ Routes.get id s = (Routes.Unhandled e, s1)
  /\ ProductUsecase.delete (IdUUID id) s = (Raise e, s1)
  /\ Routes.delete id s = (Routes.HTTPException 500 Routes.internal_detail, s1)
  /\ ProductUsecase.update (IdUUID id) body s = (Raise (update_failed e), update_logged e s1)
  /\ Routes.patch id body s
     = (Routes.HTTPException 400
          ("Error updating product: Failed to update product: " ++ message e),
        update_logged e s1).
Proof.
  intros Hf He.
  assert (Hg : ProductUsecase.get (IdUUID id) s = (Raise e, s1)).
  { unfold ProductUsecase.get. rewrite bind_run. fold (by_id (IdUUID id)). by rewrite Hf. }
  assert (Hd : ProductUsecase.delete (IdUUID id) s = (Raise e, s1)).
  { unfold ProductUsecase.delete. rewrite bind_run. fold (by_id (IdUUID id)). by rewrite Hf. }
  assert (Hu : ProductUsecase.update (IdUUID id) body s
               = (Raise (update_failed e), update_logged e s1)).
  { unfold ProductUsecase.update. rewrite try_run, bind_run. fold (by_id (IdUUID id)).
    rewrite Hf. destruct (exn_type e) eqn:Ht; [done|reflexivity..]. }
  split; [exact Hg|]. split.
  { unfold Routes.get. rewrite Hg. by destruct (exn_type e). }
  split; [exact Hd|]. split.
  { unfold Routes.delete, Routes.delete_try. rewrite Hd. by destruct (exn_type e). }
  split; [exact Hu|].
  unfold Routes.patch. rewrite Hu. reflexivity.
Qed.

(** X7.  When the existence check of Update finds the document and the
    write then finds none (the document went in between), Update logs
    "Failed to update product" and raises an InsertionException; the body
    carries no price. *)
Theorem update_lost_race (id : ident) (body : ProductUpdate.t) (s s1 s2 s3 : S)
    (d : doc) (t : Z) :
  ProductUpdate.price body = None ->
  find_one (by_id id) s = (Ok (Some d), s1) ->
  d ≠ ∅ ->
  utcnow s1 = (t, s2) ->
  find_one_and_update (by_id id) (USet (ProductUpdate.model_dump_exclude_none body)) s2
  = (Ok None, s3) ->
  ProductUsecase.update id body s
  = (Raise (update_failed nothing_updated), update_logged nothing_updated s3).
Proof.
  intros Hp Hf Hd Ht Hw.
  unfold ProductUsecase.update. rewrite try_run, bind_run. fold (by_id id). rewrite Hf.
  unfold falsy at 1. rewrite bool_decide_eq_false_2 by exact Hd.
  rewrite bind_run. unfold now. rewrite Ht. rewrite bind_run, update_price_to_float_run, Hp.
  rewrite bind_run, Hw. reflexivity.
Qed.
End AnyCollection.

(** The theorem of X5 applied to an identifier nothing carries. *)
Lemma update_raises_two_kinds_witness :
  exn_type (not_found "Product not found: " (IdUUID 8)) = NotFoundException
  \/ exn_type (not_found "Product not found: " (IdUUID 8)) = InsertionException.
Proof.
  apply (update_raises_two_kinds (IdUUID 8) restock seeded seeded).
  vm_compute. reflexivity.
Defined.

(** The theorem of X8 applied to the seeded collection with the driver
    down. *)
Lemma existence_check_failure_surfaces_witness :
  ProductUsecase.get (IdUUID 7) seeded_down
  = (Raise boom, {| Chaos.store := seeded; Chaos.schedule := [] |})
  /\ Routes.get 7 seeded_down
     = (Routes.Unhandled boom, {| Chaos.store := seeded; Chaos.schedule := [] |})
  /\ ProductUsecase.delete (IdUUID 7) seeded_down
     = (Raise boom, {| Chaos.store := seeded; Chaos.schedule := [] |})
  /\ Routes.delete 7 seeded_down
     = (Routes.HTTPException 500 Routes.internal_detail,
        {| Chaos.store := seeded; Chaos.schedule := [] |})
  /\ ProductUsecase.update (IdUUID 7) restock seeded_down
     = (Raise (update_failed boom),
        update_logged boom {| Chaos.store := seeded; Chaos.schedule := [] |})
  /\ Routes.patch 7 restock seeded_down
     = (Routes.HTTPException 400
          ("Error updating product: Failed to update product: " ++ message boom),
        update_logged boom {| Chaos.store := seeded; Chaos.schedule := [] |}).
Proof.
  apply (existence_check_failure_surfaces 7 restock seeded_down).
  - vm_compute. reflexivity.
  - discriminate.
Defined.

(** The theorem of X7 applied to the collection on which another client
    deletes the product between the two calls. *)
Lemma update_lost_race_witness :
  ProductUsecase.update (IdUUID 7) restock overtaken
  = (Raise (update_failed nothing_updated),
     update_logged nothing_updated
       {| Chaos.store := Mongo.set_documents [] (Mongo.utcnow seeded).2;
          Chaos.schedule := [] |}).
Proof.
  apply (update_lost_race (IdUUID 7) restock overtaken
           {| Chaos.store := seeded; Chaos.schedule := [Chaos.Raced (by_id (IdUUID 7))] |}
           {| Chaos.store := (Mongo.utcnow seeded).2;
              Chaos.schedule := [Chaos.Raced (by_id (IdUUID 7))] |}
           _ (Mongo.view ({| oid_bits := 1 |}, seed_doc)) 2000).
  - reflexivity.
  - vm_compute. reflexivity.
  - apply view_nonempty.
  - reflexivity.
  - vm_compute. reflexivity.
Defined.

(** On the collection where another client deletes the product between
    the existence check and the delete, [DELETE /{id}] answers 500. *)
Example delete_route_when_overtaken :
  (ProductUsecase.delete (IdUUID 7) overtaken).1 = Ok false
  /\ (Routes.delete 7 overtaken).1 = Routes.HTTPException 500 Routes.internal_detail.
Proof. vm_compute. split; reflexivity. Qed.

(** ** The usecase over the model collection *)

Section Located.
Lemma split_first_carrier lib id before hit after :
  first_carrier id before hit ->
  Mongo.split_first lib (by_id id) (before ++ hit :: after) = Some (before, hit, after).
Proof.
  intros [Hh Hb]. apply split_first_at.
  - rewrite matches_by_id. by apply bool_decide_eq_true.
  - intros od Hin. rewrite matches_by_id. apply bool_decide_eq_false. by apply Hb.
Qed.

Lemma seeded_first_carrier : first_carrier (IdUUID 7) [] ({| oid_bits := 1 |}, seed_doc).
Proof.
  split; [vm_compute; reflexivity|]. intros od Hin. by apply elem_of_nil in Hin.
Qed.

Lemma view_lookup od k : k ≠ "_id" -> Mongo.view od !! k = od.2 !! k.
Proof. intros Hk. unfold Mongo.view. by rewrite lookup_insert_ne. Qed.

(** X9.  When exactly one stored document carries the identifier, Delete
    removes it, leaves the other documents in place and returns [True];
    after that Get, Delete and Update with the same identifier raise
    NotFoundException and change nothing. *)
Theorem delete_then_not_found (m : Mongo.t) (id : ident)
    (before after : list (ObjectId * doc)) (hit : ObjectId * doc) :
  Mongo.documents m = (before ++ hit :: after)%list ->
  Mongo.view hit !! "id" = Some (ident_value id) ->
  (forall od, od ∈ (before ++ after)%list ->
              Mongo.view od !! "id" ≠ Some (ident_value id)) ->
  let m' := Mongo.set_documents (before ++ after) m in
  ProductUsecase.delete id m = (Ok true, m')
  /\ ProductUsecase.get id m' = (Raise (not_found "Product not found with filter: " id), m')
  /\ ProductUsecase.delete id m' = (Raise (not_found "Product not found with filter: " id), m')
  /\ forall body, ProductUsecase.update id body m'
                  = (Raise (not_found "Product not found: " id), m').
Proof.
  intros Hdocs Hh Hrest m'.
  assert (Hgone : Mongo.split_first (Mongo.regex m') (by_id id) (Mongo.documents m') = None).
  { apply split_first_absent. exact Hrest. }
  split; [|split; [|split]].
  - rewrite delete_mongo, Hdocs, (split_first_carrier _ id before hit after); [reflexivity|].
    split; [exact Hh|]. intros od Hin. apply Hrest, elem_of_app. by left.
  - by rewrite get_mongo, Hgone.
  - by rewrite delete_mongo, Hgone.
  - intros body. by rewrite update_mongo, Hgone.
Qed.

(** X2.  Over the model collection [GET /{id}] answers 404, with the
    message naming the identifier, exactly when no stored document carries
    the identifier in its field [id]; whatever it answers, the collection
    is left as it was. *)
Theorem get_route_on_a_healthy_collection (m : Mongo.t) (id : N) :
  (absent (IdUUID id) m
   <-> (Routes.get id m).1
       = Routes.HTTPException 404 ("Product not found with filter: " ++ UUID_str id))
  /\ (absent (IdUUID id) m
      <-> exists detail, (Routes.get id m).1 = Routes.HTTPException 404 detail)
  /\ (Routes.get id m).2 = m.
Proof.
  unfold Routes.get. rewrite get_mongo.
  rewrite <- (split_first_absent (Mongo.regex m)).
  destruct (Mongo.split_first _ _ _) as [[[before hit] after]|]; cbn [fst snd exn_type].
  - split; [|split]; [split; discriminate | | reflexivity].
    split; [discriminate|]. intros [detail Hd]. discriminate.
  - split; [|split]; [split; reflexivity | | reflexivity].
    split; [eauto | reflexivity].
Qed.
End Located.

(** The theorem of X9 applied to the seeded collection. *)
Lemma delete_then_not_found_witness :
  let m' := Mongo.set_documents ([] ++ []) seeded in
  ProductUsecase.delete (IdUUID 7) seeded = (Ok true, m')
  /\ ProductUsecase.get (IdUUID 7) m'
     = (Raise (not_found "Product not found with filter: " (IdUUID 7)), m')
  /\ ProductUsecase.delete (IdUUID 7) m'
     = (Raise (not_found "Product not found with filter: " (IdUUID 7)), m')
  /\ forall body, ProductUsecase.update (IdUUID 7) body m'
                  = (Raise (not_found "Product not found: " (IdUUID 7)), m').
Proof.
  apply (delete_then_not_found seeded (IdUUID 7) [] [] ({| oid_bits := 1 |}, seed_doc)).
  - reflexivity.
  - vm_compute. reflexivity.
  - intros od Hin. by apply elem_of_nil in Hin.
Defined.

(** The theorem of X2 applied to the seeded collection and an identifier
    nothing carries. *)
Lemma get_route_on_a_healthy_collection_witness :
  (Routes.get 8 seeded).1
  = Routes.HTTPException 404 ("Product not found with filter: " ++ UUID_str 8)
  /\ (Routes.get 8 seeded).2 = seeded.
Proof.
  split.
  - apply (proj1 (get_route_on_a_healthy_collection seeded 8)).
    intros od Hin. apply list_elem_of_singleton in Hin as ->. vm_compute. discriminate.
  - apply (proj2 (proj2 (get_route_on_a_healthy_collection seeded 8))).
Defined.

(** On the seeded collection: an identifier nothing carries is answered
    404, and the one the product carries is not. *)
Example get_route_on_the_seeded_collection :
  (Routes.get 8 seeded).1
  = Routes.HTTPException 404 "Product not found with filter: 00000000-0000-0000-0000-000000000008"
  /\ match (Routes.get 7 seeded).1 with
     | Routes.HTTPException _ _ => False
     | _ => True
     end.
Proof. vm_compute. split; [reflexivity | exact I]. Qed.

Section Frame.
Lemma dump_lookup body k :
  ProductUpdate.model_dump_exclude_none body !! k
  = if decide (k = "updated_at") then VDatetime <$> ProductUpdate.updated_at body
    else if decide (k = "status") then VBool <$> ProductUpdate.status body
    else if decide (k = "price") then VDecimal128 <$> ProductUpdate.price body
    else if decide (k = "quantity") then VInt <$> ProductUpdate.quantity body
    else None.
Proof.
  unfold ProductUpdate.model_dump_exclude_none, ProductUpdate.set_field.
  destruct body as [q p st u];
    cbn [ProductUpdate.quantity ProductUpdate.price ProductUpdate.status ProductUpdate.updated_at].
  destruct q, p, st, u; cbn [fmap option_fmap option_map];
    repeat case_decide; subst;
    repeat (first [rewrite lookup_insert_eq | rewrite lookup_insert_ne by congruence]);
    rewrite ?lookup_empty; try reflexivity; try congruence.
Qed.

Lemma update_located (m : Mongo.t) id body before hit after :
  ProductUpdate.price body = None ->
  Mongo.documents m = (before ++ hit :: after)%list ->
  first_carrier id before hit ->
  ProductUsecase.update id body m
  = (Ok (mkProductOut (Mongo.view (updated body hit))),
     Mongo.set_documents (before ++ updated body hit :: after) (Mongo.utcnow m).2).
Proof.
  intros Hp Hdocs Hfirst.
  rewrite update_mongo, Hdocs, (split_first_carrier _ id before hit after Hfirst), Hp.
  reflexivity.
Qed.

Lemma updated_field body hit k :
  (updated body hit).2 !! k
  = patched (ProductUpdate.model_dump_exclude_none body !! k) (hit.2 !! k).
Proof.
  unfold updated. cbn [snd]. rewrite lookup_union.
  destruct (ProductUpdate.model_dump_exclude_none body !! k), (hit.2 !! k); reflexivity.
Qed.

Lemma updated_field_kept body hit k :
  ProductUpdate.price body = None ->
  k ≠ "quantity" -> k ≠ "status" -> k ≠ "updated_at" ->
  (updated body hit).2 !! k = hit.2 !! k.
Proof.
  intros Hp Hq Hs Hu. rewrite updated_field, dump_lookup.
  repeat case_decide; try congruence; subst; [by rewrite Hp | reflexivity].
Qed.

(** X6.  A patch without a price, which the driver encodes, applied when
    some stored document carries the identifier: Update writes to the
    first such document and to no other.  In the document as it is stored
    afterwards [quantity], [status] and [updated_at] have the value the
    patch gives, or their old one where it gives none; the [_id] and every
    other field are as before; and what Update raises, if anything, is
    not a NotFoundException. *)
Theorem update_frame (m : Mongo.t) (id : ident) (body : ProductUpdate.t)
    (before after : list (ObjectId * doc)) (hit : ObjectId * doc) :
  ProductUpdate.price body = None ->
  Mongo.encodable (ProductUpdate.model_dump_exclude_none body) = true ->
  Mongo.documents m = (before ++ hit :: after)%list ->
  first_carrier id before hit ->
  exists hit' : ObjectId * doc,
    Mongo.documents (ProductUsecase.update id body m).2 = (before ++ hit' :: after)%list
    /\ hit'.1 = hit.1
    /\ hit'.2 !! "quantity"
       = patched (VInt <$> ProductUpdate.quantity body) (hit.2 !! "quantity")
    /\ hit'.2 !! "status"
       = patched (VBool <$> ProductUpdate.status body) (hit.2 !! "status")
    /\ hit'.2 !! "updated_at"
       = patched (VDatetime <$> ProductUpdate.updated_at body) (hit.2 !! "updated_at")
    /\ (forall k, k ≠ "quantity" -> k ≠ "status" -> k ≠ "updated_at" ->
                  hit'.2 !! k = hit.2 !! k)
    /\ ~ raises_not_found (ProductUsecase.update id body m).1.
Proof.
  intros Hp _ Hdocs Hfirst. exists (updated body hit).
  rewrite (update_located m id body before hit after Hp Hdocs Hfirst). cbn [fst snd].
  split; [reflexivity|]. split; [reflexivity|].
  split; [|split; [|split; [|split]]].
  - rewrite updated_field, dump_lookup. reflexivity.
  - rewrite updated_field, dump_lookup. reflexivity.
  - rewrite updated_field, dump_lookup. reflexivity.
  - intros k. by apply updated_field_kept.
  - intros (e & He & _). discriminate.
Qed.

Lemma empty_patch_run (m : Mongo.t) :
  empty_patch m
  = (Ok {| ProductUpdate.quantity := None; ProductUpdate.price := None;
           ProductUpdate.status := None;
           ProductUpdate.updated_at := Some (Mongo.clock m) |},
     (Mongo.utcnow m).2).
Proof. reflexivity. Qed.

(** X11.  A patch built with nothing given, then applied when some stored
    document carries the identifier: in the first such document, as it is
    stored afterwards, [updated_at] is the time the clock read when the
    patch was built, not a time read by Update; every other field, and
    every other document, is as before. *)
Theorem empty_patch_stamps_its_own_time (m : Mongo.t) (id : ident)
    (before after : list (ObjectId * doc)) (hit : ObjectId * doc) :
  Mongo.documents m = (before ++ hit :: after)%list ->
  first_carrier id before hit ->
  exists hit' : ObjectId * doc,
    Mongo.documents ((empty_patch ≫= ProductUsecase.update id) m).2
    = (before ++ hit' :: after)%list
    /\ hit'.1 = hit.1
    /\ hit'.2 !! "updated_at" = Some (VDatetime (Mongo.clock m))
    /\ (forall k, k ≠ "updated_at" -> hit'.2 !! k = hit.2 !! k)
    /\ Mongo.clock m <= Mongo.clock ((empty_patch ≫= ProductUsecase.update id) m).2.
Proof.
  intros Hdocs Hfirst. rewrite bind_run, empty_patch_run.
  set (body := {| ProductUpdate.quantity := None; ProductUpdate.price := None;
                  ProductUpdate.status := None;
                  ProductUpdate.updated_at := Some (Mongo.clock m) |}).
  exists (updated body hit).
  rewrite (update_located (Mongo.utcnow m).2 id body before hit after eq_refl Hdocs Hfirst).
  cbn [fst snd]. split; [reflexivity|]. split; [reflexivity|]. split; [|split].
  - rewrite updated_field, dump_lookup. reflexivity.
  - intros k Hk. rewrite updated_field, dump_lookup.
    repeat case_decide; try congruence; reflexivity.
  - cbn [Mongo.set_documents Mongo.utcnow Mongo.clock snd]. lia.
Qed.
End Frame.

(** The theorem of X6 applied to the seeded collection and a patch of the
    quantity. *)
Lemma update_frame_witness :
  exists hit' : ObjectId * doc,
    Mongo.documents (ProductUsecase.update (IdUUID 7) restock seeded).2 = [hit']
    /\ hit'.2 !! "quantity" = Some (VInt 7)
    /\ hit'.2 !! "updated_at" = Some (VDatetime 2500)
    /\ hit'.2 !! "name" = Some (VStr "Widget").
Proof.
  assert (Henc : Mongo.encodable (ProductUpdate.model_dump_exclude_none restock) = true)
    by (vm_compute; reflexivity).
  destruct (update_frame seeded (IdUUID 7) restock [] []
              ({| oid_bits := 1 |}, seed_doc) eq_refl Henc eq_refl seeded_first_carrier)
    as (hit' & Hd & _ & Hq & _ & Hua & Hk & _).
  exists hit'. split; [exact Hd|]. split; [exact Hq|]. split; [exact Hua|].
  rewrite Hk by discriminate. vm_compute. reflexivity.
Defined.

(** The theorem of X11 applied to the seeded collection, whose clock reads
    2000. *)
Lemma empty_patch_stamps_its_own_time_witness :
  exists hit' : ObjectId * doc,
    Mongo.documents ((empty_patch ≫= ProductUsecase.update (IdUUID 7)) seeded).2 = [hit']
    /\ hit'.2 !! "updated_at" = Some (VDatetime 2000)
    /\ hit'.2 !! "quantity" = Some (VInt 5).
Proof.
  destruct (empty_patch_stamps_its_own_time seeded (IdUUID 7) [] []
              ({| oid_bits := 1 |}, seed_doc) eq_refl seeded_first_carrier)
    as (hit' & Hd & _ & Hua & Hk & _).
  exists hit'. split; [exact Hd|]. split; [exact Hua|].
  rewrite Hk by discriminate. vm_compute. reflexivity.
Defined.

Section Created.
(** X12.  With no field [id] coming from the base model, a document the
    driver encodes and a price that a finite binary64 value is nearest
    to, Create over the model collection returns a record with the name,
    quantity and status of the body, the decimal spelling of the float
    the price was turned into, an [id] of 24 characters, and two
    timestamps of which [created_at] is the time the clock read when
    Create began and [updated_at] is not earlier. *)
Theorem create_returns_the_body (base : doc) (body : ProductIn.t) (m : Mongo.t) :
  base !! "id" = None ->
  Mongo.encodable (stored_doc base body m) = true ->
  is_finite (float_of_Decimal (ProductIn.price body)) = true ->
  exists out m' id created_at updated_at,
    ProductUsecase.create base body m = (Ok out, m')
    /\ out_fields out !! "name" = Some (VStr (ProductIn.name body))
    /\ out_fields out !! "quantity" = Some (VInt (ProductIn.quantity body))
    /\ out_fields out !! "price" = Some (VDecimal (returned_price (ProductIn.price body)))
    /\ out_fields out !! "status" = Some (VBool (ProductIn.status body))
    /\ out_fields out !! "id" = Some (VStr id) /\ String.length id = 24%nat
    /\ out_fields out !! "created_at" = Some (VDatetime created_at)
    /\ out_fields out !! "updated_at" = Some (VDatetime updated_at)
    /\ Mongo.clock m = created_at /\ created_at <= updated_at
    /\ updated_at <= Mongo.clock m'.
Proof.
  intros Hid _ Hfin.
  exists (created body m), (after_create base body m), (ObjectId_str (fresh_id m)),
         (Mongo.clock m), (Mongo.clock m + Z.of_N (hd 0%N (Mongo.ticks m))).
  split; [by apply create_mongo|]. unfold created. cbn [out_fields].
  split; [|split; [|split; [|split; [|split; [|split; [|split; [|split; [|split; [|split]]]]]]]]].
  - repeat (rewrite lookup_insert_ne by discriminate). apply lookup_singleton_eq.
  - repeat (rewrite lookup_insert_ne by discriminate). apply lookup_insert_eq.
  - repeat (rewrite lookup_insert_ne by discriminate). apply lookup_insert_eq.
  - repeat (rewrite lookup_insert_ne by discriminate). apply lookup_insert_eq.
  - apply lookup_insert_eq.
  - apply hex_length.
  - repeat (rewrite lookup_insert_ne by discriminate). apply lookup_insert_eq.
  - repeat (rewrite lookup_insert_ne by discriminate). apply lookup_insert_eq.
  - reflexivity.
  - lia.
  - cbn [after_create Mongo.clock]. lia.
Qed.

(** X13.  When the base model does contribute a field [id], so that the
    record cannot be built after the insert, Create over the model
    collection raises InsertionException and its compensating delete
    removes the document just inserted: the stored documents are those
    from before, and the rollback and the failure are both logged.  The
    collection must not already hold the [_id] it generates. *)
Theorem failed_create_is_rolled_back (base : doc) (body : ProductIn.t) (m : Mongo.t) :
  is_Some (base !! "id") ->
  id_is_fresh m ->
  exists m',
    ProductUsecase.create base body m = (Raise (create_failed duplicate_id), m')
    /\ Mongo.documents m' = Mongo.documents m
    /\ Mongo.logs m'
       = List.app (Mongo.logs m)
           [(INFO, "Rollback: Removed product " ++ ObjectId_str (fresh_id m));
            (ERROR, "Error inserting product: " ++ message duplicate_id)].
Proof.
  intros [v Hv] Hfresh. unfold ProductUsecase.create.
  change (ProductModel.new body m)
    with (Ok (model_at body m), snd (Mongo.utcnow (snd (Mongo.utcnow m)))).
  cbv iota beta.
  change (insert_one ?d ?s) with (Mongo.insert_one d s).
  unfold Mongo.insert_one. cbv iota beta. cbn [inserted_id].
  fold (stored_doc base body m). fold (fresh_id m). unfold ProductOut_with_id.
  rewrite model_dump_id, Hv. fold duplicate_id.
  rewrite create_except_run. cbn [mbind option_bind inserted_id].
  unfold after_rollback.
  change (delete_one ?q ?s) with (Mongo.delete_one q s).
  unfold Mongo.delete_one. rewrite query_ok_eq. cbn [Mongo.documents].
  rewrite (split_first_at _ _ (Mongo.documents m) (fresh_id m, stored_doc base body m) []).
  - eexists. split; [reflexivity|]. split.
    + cbn. apply app_nil_r.
    + cbn. rewrite <- app_assoc. reflexivity.
  - rewrite matches_object_id. by apply bool_decide_eq_true.
  - intros od Hin. rewrite matches_object_id. apply bool_decide_eq_false. by apply Hfresh.
Qed.
End Created.

(** The theorem of X12 applied to the sample product and an empty
    collection. *)
Lemma create_returns_the_body_witness :
  exists out m',
    ProductUsecase.create ∅ widget Mongo.empty = (Ok out, m')
    /\ out_fields out !! "name" = Some (VStr "Widget")
    /\ out_fields out !! "price" = Some (VDecimal (returned_price (DFin false 999 (-2)))).
Proof.
  destruct (create_returns_the_body ∅ widget Mongo.empty)
    as (out & m' & id & c & u & Hc & Hn & _ & Hp & _);
    [reflexivity | vm_compute; reflexivity | reflexivity |].
  exists out, m'. split; [exact Hc|]. split; [exact Hn | exact Hp].
Defined.

(** The theorem of X13 applied to a base model with a field [id] and an
    empty collection. *)
Lemma failed_create_is_rolled_back_witness :
  exists m',
    ProductUsecase.create {["id" := VUUID 7]} widget Mongo.empty
    = (Raise (create_failed duplicate_id), m')
    /\ Mongo.documents m' = [].
Proof.
  destruct (failed_create_is_rolled_back {["id" := VUUID 7]} widget Mongo.empty)
    as (m' & Hc & Hd & _).
  - exists (VUUID 7). reflexivity.
  - intros od Hin. by apply elem_of_nil in Hin.
  - exists m'. split; [exact Hc | exact Hd].
Defined.

Section Conjunction.
Lemma build_query_filter_steps filters :
  ProductUsecase.build_query_filter (Some filters)
  = let q := ProductUsecase.build_query_filter
               (Some (price_filters (ProductFilters.min_price filters)
                                    (ProductFilters.max_price filters))) in
    let q := match ProductFilters.name filters with
             | Some name => <["name" := name_cond name]> q
             | None => q
             end in
    match ProductFilters.status filters with
    | Some status => <["status" := CEq (VBool status)]> q
    | None => q
    end.
Proof. reflexivity. Qed.

Lemma price_filter_keys lo hi k :
  k ≠ "price" ->
  ProductUsecase.build_query_filter (Some (price_filters lo hi)) !! k = None.
Proof.
  intros Hk. rewrite build_price_filter.
  destruct lo, hi; rewrite ?lookup_singleton_ne by congruence; try reflexivity.
Qed.

Lemma named_filter_keys filters k :
  k ≠ "price" -> k ≠ "name" ->
  match ProductFilters.name filters with
  | Some name =>
      <["name" := name_cond name]>
        (ProductUsecase.build_query_filter
           (Some (price_filters (ProductFilters.min_price filters)
                                (ProductFilters.max_price filters))))
  | None =>
      ProductUsecase.build_query_filter
        (Some (price_filters (ProductFilters.min_price filters)
                             (ProductFilters.max_price filters)))
  end !! k = None.
Proof.
  intros H1 H2. destruct (ProductFilters.name filters).
  - rewrite lookup_insert_ne by congruence. by apply price_filter_keys.
  - by apply price_filter_keys.
Qed.

Lemma matches_insert lib q k c d :
  q !! k = None ->
  Mongo.matches lib (<[k := c]> q) d
  = Mongo.cond_holds lib (d !! k) c && Mongo.matches lib q d.
Proof.
  intros Hk. unfold Mongo.matches.
  apply (map_Forall_insert_bool (fun k c => Mongo.cond_holds lib (d !! k) c)). exact Hk.
Qed.

Lemma query_ok_insert lib q k c :
  q !! k = None ->
  Mongo.query_ok lib (<[k := c]> q) = Mongo.cond_ok lib c && Mongo.query_ok lib q.
Proof.
  intros Hk. unfold Mongo.query_ok.
  apply (map_Forall_insert_bool (fun _ c => Mongo.cond_ok lib c)). exact Hk.
Qed.

Lemma name_cond_ok lib name :
  plain name = true -> Mongo.cond_ok lib (name_cond name) = true.
Proof. intros Hp. by rewrite name_cond_reads, (plain_read _ _ Hp). Qed.

Lemma name_cond_holds lib name (d : doc) :
  plain name = true ->
  Mongo.cond_holds lib (d !! "name") (name_cond name) = true <-> named name d.
Proof. intros Hp. rewrite name_cond_finds, (plain_read _ _ Hp). apply name_found_literal. Qed.

Lemma status_cond_holds lib status (d : doc) :
  Mongo.cond_holds lib (d !! "status") (CEq (VBool status)) = true
  <-> d !! "status" = Some (VBool status).
Proof.
  unfold Mongo.cond_holds, Mongo.bson_eqb.
  destruct (d !! "status") as [v|]; cbn [default from_option]; unfold id.
  - destruct (num_of v) eqn:Hn; cbn [num_of].
    + split; [discriminate|]. intros [= ->]. discriminate.
    + rewrite bool_decide_eq_true. split; congruence.
  - cbn [num_of]. rewrite bool_decide_eq_true. split; discriminate.
Qed.

Lemma filters_ok lib filters :
  from_option plain true (ProductFilters.name filters) = true ->
  Mongo.query_ok lib (ProductUsecase.build_query_filter (Some filters)) = true.
Proof.
  intros Hplain. rewrite build_query_filter_steps. cbv zeta.
  assert (Hok : Mongo.query_ok lib
            match ProductFilters.name filters with
            | Some name =>
                <["name" := name_cond name]>
                  (ProductUsecase.build_query_filter
                     (Some (price_filters (ProductFilters.min_price filters)
                                          (ProductFilters.max_price filters))))
            | None =>
                ProductUsecase.build_query_filter
                  (Some (price_filters (ProductFilters.min_price filters)
                                       (ProductFilters.max_price filters)))
            end = true).
  { destruct (ProductFilters.name filters) as [name|]; cbn [from_option] in Hplain.
    - rewrite query_ok_insert by (by apply price_filter_keys).
      by rewrite (name_cond_ok _ _ Hplain), price_filter_ok.
    - apply price_filter_ok. }
  destruct (ProductFilters.status filters) as [status|].
  - rewrite query_ok_insert by (by apply named_filter_keys). rewrite Hok. reflexivity.
  - exact Hok.
Qed.

Lemma matches_selected lib filters (d : doc) :
  from_option plain true (ProductFilters.name filters) = true ->
  Mongo.matches lib (ProductUsecase.build_query_filter (Some filters)) d = true
  <-> selected filters d.
Proof.
  intros Hplain. rewrite build_query_filter_steps. cbv zeta. unfold selected.
  destruct (ProductFilters.status filters) as [status|].
  - rewrite matches_insert by (by apply named_filter_keys).
    rewrite andb_true_iff, status_cond_holds.
    destruct (ProductFilters.name filters) as [name|]; cbn [from_option] in Hplain.
    + rewrite matches_insert by (by apply price_filter_keys).
      rewrite andb_true_iff, (name_cond_holds _ _ _ Hplain), price_filter_matches.
      split.
      * intros (Hs & Hn & Hw).
        repeat split; [exact Hw | by intros ? [= <-] | by intros ? [= <-]].
      * intros (Hw & Hn & Hs). eauto.
    + rewrite price_filter_matches. split.
      * intros (Hs & Hw). repeat split; [exact Hw | discriminate | by intros ? [= <-]].
      * intros (Hw & _ & Hs). eauto.
  - destruct (ProductFilters.name filters) as [name|]; cbn [from_option] in Hplain.
    + rewrite matches_insert by (by apply price_filter_keys).
      rewrite andb_true_iff, (name_cond_holds _ _ _ Hplain), price_filter_matches.
      split.
      * intros (Hn & Hw). repeat split; [exact Hw | by intros ? [= <-] | discriminate].
      * intros (Hw & Hn & _). eauto.
    + rewrite price_filter_matches. split.
      * intros Hw. repeat split; [exact Hw | discriminate | discriminate].
      * by intros (Hw & _ & _).
Qed.

End Conjunction.


Section RoundTrip.
Lemma xnum_le_refl x : xnum_le x x = true.
Proof. destruct x; try reflexivity. cbn [xnum_le]. apply Qle_bool_iff, Qle_refl. Qed.

Lemma append_empty_r (s : string) : s ++ "" = s.
Proof.
  induction s as [|c s IH]; [reflexivity|].
  change (String c (s ++ "") = String c s). by rewrite IH.
Qed.

Lemma contains_caseless_refl s : contains_caseless s s.
Proof. exists "", "". by rewrite append_empty_r. Qed.

Lemma within_own_price p (d : doc) :
  d !! "price" = Some (VFloat (float_of_Decimal p)) -> within (Some p) (Some p) d = true.
Proof.
  intros Hd. unfold within, bound, Mongo.field_le. rewrite Hd.
  cbn [from_option mbind option_bind num_of]. by rewrite xnum_le_refl.
Qed.

(** X14.  A product is created over the model collection, its name free
    of metacharacters, its price one a finite binary64 value is nearest
    to, the base model contributing no field [id], the document one the
    driver encodes.  The filter Query builds when it is asked for that
    product's own price as both bounds, its own name and its own status
    selects the document Create stored: rounding the bounds does not lose
    it. *)
Theorem created_record_is_found_by_its_own_values (base : doc) (body : ProductIn.t)
    (m : Mongo.t) :
  base !! "id" = None ->
  Mongo.encodable (stored_doc base body m) = true ->
  is_finite (float_of_Decimal (ProductIn.price body)) = true ->
  plain (ProductIn.name body) = true ->
  exists out found,
    ProductUsecase.create base body m = (Ok out, after_create base body m)
    /\ find (ProductUsecase.build_query_filter (Some (filters_of body)))
         (after_create base body m)
       = (Ok found, after_create base body m)
    /\ Mongo.view (fresh_id m, stored_doc base body m) ∈ found.
Proof.
  intros Hid _ Hfin Hplain. eexists _, _. split; [by apply create_mongo|]. split.
  { change (find ?q ?s) with (Mongo.find q s). unfold Mongo.find.
    rewrite (filters_ok _ (filters_of body) Hplain). reflexivity. }
  unfold Mongo.matching. apply list_elem_of_In, filter_In. split.
  - apply list_elem_of_In. unfold after_create. cbn [Mongo.documents].
    rewrite fmap_app. apply elem_of_app. right. apply list_elem_of_here.
  - apply (matches_selected _ (filters_of body) _ Hplain).
    destruct (stored_doc_fields base body m) as (Hn & _ & Hs).
    split; [|split].
    + apply within_own_price. rewrite view_lookup by discriminate. apply stored_doc_price.
    + intros name [= <-]. exists (ProductIn.name body).
      split; [|apply contains_caseless_refl]. by rewrite view_lookup.
    + intros status [= <-]. by rewrite view_lookup.
Qed.
End RoundTrip.

(** The theorem of X14 applied to the sample product and an empty
    collection. *)
Lemma created_record_is_found_by_its_own_values_witness :
  exists out found,
    ProductUsecase.create ∅ widget Mongo.empty = (Ok out, after_create ∅ widget Mongo.empty)
    /\ find (ProductUsecase.build_query_filter (Some (filters_of widget)))
         (after_create ∅ widget Mongo.empty)
       = (Ok found, after_create ∅ widget Mongo.empty)
    /\ Mongo.view (fresh_id Mongo.empty, stored_doc ∅ widget Mongo.empty) ∈ found.
Proof.
  apply created_record_is_found_by_its_own_values;
    [reflexivity | vm_compute; reflexivity | reflexivity | reflexivity].
Defined.
